(** * sjm-school-app: access rules, login forms and dashboards

    A shallow embedding of the parts of the school portal that its
    specification makes checkable statements about:

    - [firestore.rules]: the two rule sets of the document database
      (module [Rules], sub-modules [RulesetA] and [RulesetB]);
    - the admin and student login forms (modules [AdminLogin] and
      [StudentLogin]);
    - the teacher dashboard page (module [TeacherDashboard]);
    - the student attendance page (module [StudentAttendance]).

    Event handlers and effects are written in a small state-and-exception
    monad over a "world" made of the component's React state, the browser's
    local storage and a log of the calls that left the component. *)

From Stdlib Require Import String Ascii List Bool ZArith Lia.
From stdpp Require Import base option list strings gmap.

Local Open Scope string_scope.

#[local] Set Warnings "-register-all".

(** ** JavaScript values and strings *)

Module Js.

(** [String.prototype.includes]: [needle] occurs somewhere in [hay]. *)
Fixpoint includes (hay needle : string) : bool :=
  String.prefix needle hay ||
  match hay with
  | EmptyString => false
  | String _ rest => includes rest needle
  end.

(** [toLowerCase] on the ASCII range; bytes outside [A-Z] are kept. *)
Definition lower_ascii (c : ascii) : ascii :=
  let n := nat_of_ascii c in
  if (65 <=? n)%nat && (n <=? 90)%nat then ascii_of_nat (n + 32) else c.

Fixpoint toLowerCase (s : string) : string :=
  match s with
  | EmptyString => EmptyString
  | String c rest => String (lower_ascii c) (toLowerCase rest)
  end.

Definition upper_ascii (c : ascii) : ascii :=
  let n := nat_of_ascii c in
  if (97 <=? n)%nat && (n <=? 122)%nat then ascii_of_nat (n - 32) else c.

(** [s.charAt(0).toUpperCase() + s.slice(1)] *)
Definition capitalize (s : string) : string :=
  match s with
  | EmptyString => EmptyString
  | String c rest => String (upper_ascii c) rest
  end.

(** Truthiness of a [string | null | undefined]: the empty string is falsy. *)
Definition truthy (s : option string) : bool :=
  match s with
  | Some EmptyString | None => false
  | Some _ => true
  end.

(** [a || d] on a nullable string. *)
Definition or_else (a : option string) (d : string) : string :=
  match a with
  | Some EmptyString | None => d
  | Some s => s
  end.

(** An object used as [Record<string, V>], created by the literal [{}]:
    its own enumerable keys, and its prototype when an assignment to the
    key [__proto__] replaced [Object.prototype] ([None]) by a value.
    Names inherited from [Object.prototype] are not modelled. *)
Record Obj (V : Type) := mkObj { own : gmap string V; proto : option V }.
Global Arguments mkObj {V} own proto.
Global Arguments own {V} o.
Global Arguments proto {V} o.

(** [{}] *)
Definition obj_empty {V} : Obj V := mkObj ∅ None.

(** [o[k] = v] for an object value [v]. *)
Definition obj_set {V} (o : Obj V) (k : string) (v : V) : Obj V :=
  if String.eqb k "__proto__" then mkObj (own o) (Some v)
  else mkObj (<[k := v]> (own o)) (proto o).

(** [o[k]] *)
Definition obj_get {V} (o : Obj V) (k : string) : option V :=
  match own o !! k with
  | Some v => Some v
  | None => if String.eqb k "__proto__" then proto o else None
  end.

(** Assignment never creates an own key [__proto__]. *)
Definition obj_wf {V} (o : Obj V) : Prop := own o !! "__proto__" = None.

(** [Object.keys(o)] (in no particular order) and [Object.values(o)]. *)
Definition obj_keys {V} (o : Obj V) : list string :=
  (map_to_list (own o)).*1.

Definition obj_values {V} (o : Obj V) : list V :=
  (map_to_list (own o)).*2.

(** What a [catch] clause receives, and what the data clients return in
    their [error] field: an object with optional [message] and [code]. *)
Record Error := mkError { message : option string; code : option string }.

(** The [TypeError] of calling a method on [undefined]. *)
Definition TypeError : Error :=
  mkError (Some "Cannot read properties of undefined") None.

End Js.

(** ** Security rules of the document database ([firestore.rules]) *)

Module Rules.

(** Field values of documents and of auth-token claims. *)
Inductive value :=
| VNull
| VBool (b : bool)
| VInt (z : Z)
| VString (s : string)
| VList (l : list value).

(** The rules language's [==]: values of different types are unequal. *)
Fixpoint value_eqb (a b : value) : bool :=
  match a, b with
  | VNull, VNull => true
  | VBool x, VBool y => Bool.eqb x y
  | VInt x, VInt y => Z.eqb x y
  | VString x, VString y => String.eqb x y
  | VList xs, VList ys =>
      (fix go (xs ys : list value) : bool :=
         match xs, ys with
         | [], [] => true
         | x :: xs', y :: ys' => value_eqb x y && go xs' ys'
         | _, _ => false
         end) xs ys
  | _, _ => false
  end.

(** [request.auth]: the caller's uid and the claims of the ID token. *)
Record Auth := mkAuth { uid : string; token : gmap string value }.

Inductive Method := Get | List | Create | Update | Delete.

(** A request: [request.auth] ([None] is [null]), the operation and
    [request.resource.data], the document as it would be written. *)
Record Request := mkRequest {
  auth : option Auth;
  method : Method;
  resource_data : gmap string value
}.

(** The collections the rules look into with [exists] and [get]. *)
Record Database := mkDatabase {
  teachers : gmap string (gmap string value)
}.

(** A condition evaluates to a boolean or fails ([None]); an [allow]
    statement grants access only when its condition evaluates to [true]. *)
Definition holds (c : option bool) : bool :=
  match c with
  | Some true => true
  | _ => false
  end.

(** [a && b], left to right: a false left operand decides, a failing one
    fails the condition. *)
Definition rule_and (a b : option bool) : option bool :=
  match a with
  | Some true => b
  | Some false => Some false
  | None => None
  end.

(** [m.f == v]: reading a field the map does not have fails. *)
Definition field_eq (m : gmap string value) (f : string) (v : value)
  : option bool :=
  x ← m !! f; Some (value_eqb x v).

(** [request.auth != null] and [request.auth == null]. *)
Definition authenticated (req : Request) : bool :=
  match auth req with Some _ => true | None => false end.

(** [l.hasAny([x])] on a list value. *)
Definition hasAny1 (l x : value) : option bool :=
  match l with
  | VList vs => Some (existsb (value_eqb x) vs)
  | _ => None
  end.

Module RulesetA.

(** [request.auth != null && request.auth.token.isAdmin == true] *)
Definition isAdmin (req : Request) : option bool :=
  rule_and (Some (authenticated req))
           (a ← auth req; field_eq (token a) "isAdmin" (VBool true)).

(** [request.auth != null && exists(.../teachers/$(request.auth.uid))] *)
Definition isTeacher (db : Database) (req : Request) : option bool :=
  rule_and (Some (authenticated req))
           (a ← auth req; Some (bool_decide (is_Some (teachers db !! uid a)))).

(** [request.auth != null && request.auth.uid == userId] *)
Definition isOwner (req : Request) (userId : string) : option bool :=
  rule_and (Some (authenticated req))
           (a ← auth req; Some (String.eqb (uid a) userId)).

(** [get(.../teachers/$(request.auth.uid)).data.assignedClasses
     .hasAny([resource.data.gradeLevel])] *)
Definition teaches_grade (db : Database) (req : Request)
    (resource : option (gmap string value)) : option bool :=
  a ← auth req;
  t ← teachers db !! uid a;
  classes ← t !! "assignedClasses";
  doc ← resource;
  grade ← doc !! "gradeLevel";
  hasAny1 classes grade.

(** [match /students/{studentDocId}]: access is granted when one of the
    [allow] statements naming the operation has a true condition.
    [resource] is the stored document, if there is one. *)
Definition students (db : Database) (studentDocId : string)
    (resource : option (gmap string value)) (req : Request) : bool :=
  match method req with
  | Create =>
      holds (rule_and (isAdmin req)
               (field_eq (resource_data req) "studentId"
                  (VString studentDocId)))
  | Update | Delete => holds (isAdmin req)
  | Get | List =>
      holds (isAdmin req)
      || holds (rule_and (isTeacher db req) (teaches_grade db req resource))
      || negb (authenticated req)
  end.

(** [match /teachers/{teacherId}] *)
Definition teachers_rule (teacherId : string) (req : Request) : bool :=
  match method req with
  | Create =>
      holds (rule_and (isAdmin req)
               (field_eq (resource_data req) "uid" (VString teacherId)))
  | Delete => holds (isAdmin req)
  | Get | List | Update =>
      holds (isAdmin req) || holds (isOwner req teacherId)
  end.

End RulesetA.

Module RulesetB.

(** [return request.auth != null;] *)
Definition isAdmin (req : Request) : option bool :=
  Some (authenticated req).

(** [match /students/{studentId}] *)
Definition students (studentId : string) (req : Request) : bool :=
  match method req with
  | Get | List => true
  | Create | Update | Delete => holds (isAdmin req)
  end.

End RulesetB.

End Rules.

(** ** Handlers and effects: a state-and-exception monad *)

Module Ui.

(** An awaited call either resolves to a value or rejects with an error,
    which [await] rethrows. *)
Inductive Outcome (A : Type) :=
| Returned (a : A)
| Thrown (e : Js.Error).
Global Arguments Returned {A} a.
Global Arguments Thrown {A} e.

Inductive LogLevel := Warn | Err.

(** The calls a component makes to the outside, in the order made. *)
Inductive Call :=
| SignInWithPassword (email password : string)
| SignOut
| SelectSingle (table column value : string)
| SelectIn (table column : string) (values : list string)
| SelectAnnouncements
| GetDoc (collection id : string)
| GetDocs (collection field value : string)
| RouterPush (href : string)
| Toast (title description : string)
| Console (level : LogLevel).

(** The component's React state (and refs) [R], the browser's local storage
    and the calls made so far. *)
Record World (R : Type) := mkWorld {
  react : R;
  localStorage : gmap string string;
  calls : list Call
}.
Global Arguments mkWorld {R} react localStorage calls.
Global Arguments react {R} w.
Global Arguments localStorage {R} w.
Global Arguments calls {R} w.

Definition M (R A : Type) : Type := World R → Outcome A * World R.

Definition ret {R A} (a : A) : M R A := λ w, (Returned a, w).

Definition bind {R A B} (m : M R A) (k : A → M R B) : M R B :=
  λ w, match m w with
       | (Returned a, w') => k a w'
       | (Thrown e, w') => (Thrown e, w')
       end.

#[global] Instance M_ret {R} : MRet (M R) := λ A, @ret R A.
#[global] Instance M_bind {R} : MBind (M R) := λ A B k m, bind m k.

(** [throw e] *)
Definition throw {R A} (e : Js.Error) : M R A := λ w, (Thrown e, w).

(** [try { body } catch (e) { handler e }] *)
Definition try_catch {R A} (body : M R A) (handler : Js.Error → M R A)
  : M R A :=
  λ w, match body w with
       | (Returned a, w') => (Returned a, w')
       | (Thrown e, w') => handler e w'
       end.

(** [try { body } finally { fin }]: [fin] runs on both exits, and the
    outcome of [body] stands unless [fin] itself throws. *)
Definition finally {R A} (body : M R A) (fin : M R unit) : M R A :=
  λ w, match body w with
       | (o, w') =>
           match fin w' with
           | (Returned _, w'') => (o, w'')
           | (Thrown e, w'') => (Thrown e, w'')
           end
       end.

(** React state: [setX(v)] and [setX(prev => ...)] are both updates. *)
Definition getState {R} : M R R := λ w, (Returned (react w), w).

Definition setState {R} (f : R → R) : M R unit :=
  λ w, (Returned tt, mkWorld (f (react w)) (localStorage w) (calls w)).

Definition call {R} (c : Call) : M R unit :=
  λ w, (Returned tt, mkWorld (react w) (localStorage w) (calls w ++ [c])).

(** [await] of a call whose outcome the environment decides. *)
Definition await {R A} (c : Call) (o : Outcome A) : M R A :=
  λ w, (o, mkWorld (react w) (localStorage w) (calls w ++ [c])).

(** [localStorage.getItem(k)] and [localStorage.setItem(k, v)] *)
Definition getItem {R} (k : string) : M R (option string) :=
  λ w, (Returned (localStorage w !! k), w).

Definition setItem {R} (k v : string) : M R unit :=
  λ w, (Returned tt, mkWorld (react w) (<[k := v]> (localStorage w)) (calls w)).

(** A page effect's awaited call: while it is pending the component may be
    unmounted, which runs the effect's cleanup ([isMounted.current = false]). *)
Record Awaited (A : Type) := mkAwaited {
  unmounts : bool;
  outcome : Outcome A
}.
Global Arguments mkAwaited {A} unmounts outcome.
Global Arguments unmounts {A} a.
Global Arguments outcome {A} a.

Definition await_page {R A} (cleanup : R → R) (c : Call) (a : Awaited A)
  : M R A :=
  (if unmounts a then setState cleanup else mret tt) ;;
  await c (outcome a).

(** [m] never changes local storage, whichever way it exits. *)
Definition frames {R A} (m : M R A) : Prop :=
  ∀ w, localStorage (m w).2 = localStorage w.

(** Final world of a handler started in [w]. *)
Definition exec {R A} (m : M R A) (w : World R) : World R := (m w).2.

(** A freshly mounted component on a given local storage. *)
Definition mount {R} (init : R) (storage : gmap string string) : World R :=
  mkWorld init storage [].

End Ui.

(** ** Data clients (external interfaces) *)

Module Supabase.

Import Ui.

(** [{ data, error }] as the query builder resolves it. *)
Record Response (A : Type) := mkResponse {
  data : option A;
  error : option Js.Error
}.
Global Arguments mkResponse {A} data error.
Global Arguments data {A} r.
Global Arguments error {A} r.

Record User := mkUser {
  user_id : string;
  user_email : option string;
  user_full_name : option string;  (* [user_metadata?.full_name] *)
  user_role : option string        (* the account's role; no form reads it *)
}.

Record Session := mkSession { access_token : string }.

(** [{ data: { user, session }, error }] of [auth.signInWithPassword]. *)
Record AuthResponse := mkAuthResponse {
  user : option User;
  session : option Session;
  auth_error : option Js.Error
}.

(** A row of [students] as the login form selects it
    ([full_name, auth_user_id]). *)
Record StudentProfile := mkStudentProfile {
  sp_full_name : option string;
  sp_auth_user_id : string
}.

(** The auth side of the client, as the two login forms use it. *)
Record Auth := mkAuth {
  signInWithPassword : string → string → Outcome AuthResponse;
  (* [.from('students').select(..).eq('auth_user_id', id).single()] *)
  student_by_auth_user_id : string → Outcome (Response StudentProfile);
  (* whether [auth.signOut()] rejects *)
  signOut_rejects : bool
}.

(** [await supabase.auth.signOut().catch(console.error)] *)
Definition signOut {R} (sb : Auth) : M R unit :=
  call SignOut ;;
  if signOut_rejects sb then call (Console Err) else mret tt.

End Supabase.

(** ** Local-storage keys ([@/lib/constants])

    The module that names the keys is not part of the sources at hand; the
    handlers below take the three names as given. *)

Record Constants := mkConstants {
  ADMIN_LOGGED_IN_KEY : string;
  TEACHER_LOGGED_IN_UID_KEY : string;
  CURRENTLY_LOGGED_IN_STUDENT_ID : string
}.

(** ** The login forms *)

(** What both forms hand to [onSubmit], and the state they keep. *)
Module LoginForm.

Record Values := mkValues { email : string; password : string }.

Record State := mkState { loginError : option string }.

Definition setLoginError (e : option string) : Ui.M State unit :=
  Ui.setState (λ _, mkState e).

Definition initial : State := mkState None.

End LoginForm.

Module AdminLogin.

Import Ui Supabase LoginForm.

Section onSubmit.

Variable K : Constants.
(** [typeof window !== 'undefined'] *)
Variable has_window : bool.
(** [getSupabase()] *)
Variable supabase : Supabase.Auth.

Definition on_auth_error (error : Js.Error) : M State unit :=
  signOut supabase ;;
  match Js.message error with
  | None => throw Js.TypeError
  | Some message =>
      let lowerCaseErrorMessage := Js.toLowerCase message in
      if Js.includes lowerCaseErrorMessage "invalid login credentials" then
        setLoginError (Some "Invalid email or password. Please check your credentials and try again.")
      else if Js.includes lowerCaseErrorMessage "email not confirmed" then
        setLoginError (Some "This admin account's email has not been confirmed. Please check your inbox for a confirmation link.")
      else
        setLoginError (Some ("An unexpected error occurred: " +:+ message))
  end.

Definition on_exception (error : Js.Error) : M State unit :=
  signOut supabase ;;
  if Js.truthy (Js.message error)
     && Js.includes (Js.toLowerCase (default "" (Js.message error)))
          "failed to fetch"
  then
    setLoginError (Some "Could not connect to the server. Please check your internet connection and ensure the Supabase URL in your .env file is correct.")
  else
    setLoginError (Some "An unexpected error occurred. Please try again.").

Definition onSubmit (values : Values) : M State unit :=
  setLoginError None ;;
  try_catch
    (let processedEmail := Js.toLowerCase (email values) in
     r ← await (SignInWithPassword processedEmail (password values))
               (signInWithPassword supabase processedEmail (password values));
     match auth_error r with
     | Some error => on_auth_error error
     | None =>
         match user r, session r with
         | Some u, Some _ =>
             (if has_window
              then setItem (ADMIN_LOGGED_IN_KEY K) "true"
              else mret tt) ;;
             let displayName := Js.or_else (user_full_name u) "Admin" in
             call (Toast "Login Successful"
                     ("Welcome back, " +:+ displayName
                      +:+ "! Redirecting to dashboard...")) ;;
             call (RouterPush "/admin/dashboard")
         | _, _ =>
             signOut supabase ;;
             setLoginError (Some "Could not log in. User or session data missing.")
         end
     end)
    on_exception.

End onSubmit.

End AdminLogin.

Module StudentLogin.

Import Ui Supabase LoginForm.

Section onSubmit.

Variable supabase : Supabase.Auth.

Definition on_auth_error (authError : Js.Error) : M State unit :=
  signOut supabase ;;
  match Js.message authError with
  | None => throw Js.TypeError
  | Some message =>
      let lowerCaseErrorMessage := Js.toLowerCase message in
      if Js.includes lowerCaseErrorMessage "invalid login credentials" then
        call (Console Warn) ;;
        setLoginError (Some "Invalid email or password. Please check your credentials and try again.")
      else if Js.includes lowerCaseErrorMessage "email not confirmed" then
        call (Console Warn) ;;
        setLoginError (Some "Your email has not been confirmed. Please check your inbox for a confirmation link.")
      else
        call (Console Err) ;;
        setLoginError (Some ("An unexpected error occurred: " +:+ message))
  end.

Definition on_exception (error : Js.Error) : M State unit :=
  signOut supabase ;;
  call (Console Err) ;;
  if Js.truthy (Js.message error)
     && Js.includes (Js.toLowerCase (default "" (Js.message error)))
          "failed to fetch"
  then
    setLoginError (Some "Could not connect to the server. Please check your internet connection and ensure the Supabase URL in your .env file is correct.")
  else
    setLoginError (Some ("An unexpected error occurred: "
                         +:+ Js.or_else (Js.message error) "Unknown error"
                         +:+ ".")).

(** [profileError && profileError.code !== 'PGRST116'] *)
Definition is_lookup_failure (profileError : option Js.Error) : bool :=
  match profileError with
  | Some e => negb (bool_decide (Js.code e = Some "PGRST116"))
  | None => false
  end.

Definition onSubmit (values : Values) : M State unit :=
  setLoginError None ;;
  try_catch
    (let processedEmail := Js.toLowerCase (email values) in
     authData ← await (SignInWithPassword processedEmail (password values))
                      (signInWithPassword supabase processedEmail
                         (password values));
     match auth_error authData with
     | Some authError => on_auth_error authError
     | None =>
         match user authData, session authData with
         | Some u, Some _ =>
             r ← await (SelectSingle "students" "auth_user_id" (user_id u))
                       (student_by_auth_user_id supabase (user_id u));
             if is_lookup_failure (error r) then
               signOut supabase ;;
               call (Console Err) ;;
               setLoginError (Some "Could not verify student profile after login. Please contact admin.")
             else
               match data r with
               | None =>
                   signOut supabase ;;
                   setLoginError (Some "No student profile associated with this login account. Please contact admin.")
               | Some studentProfile =>
                   call (Toast "Login Successful"
                           ("Welcome back, "
                            +:+ (if Js.truthy (sp_full_name studentProfile)
                                 then default "" (sp_full_name studentProfile)
                                 else default "undefined" (user_email u))
                            +:+ "! Redirecting to your dashboard...")) ;;
                   call (RouterPush "/student/dashboard")
               end
         | _, _ =>
             signOut supabase ;;
             setLoginError (Some "Could not log in. User or session data missing.")
         end
     end)
    on_exception.

(** The two conditions of entry. (a) The password sign-in resolves without
    an error and with both a user and a session; the user is returned. *)
Definition auth_succeeds (values : Values) : option User :=
  match signInWithPassword supabase (Js.toLowerCase (email values))
          (password values) with
  | Returned r =>
      match auth_error r, user r, session r with
      | None, Some u, Some _ => Some u
      | _, _, _ => None
      end
  | Thrown _ => None
  end.

(** (b) The lookup of the [students] row by [auth_user_id] resolves with a
    row, and without an error other than the no-rows code. *)
Definition profile_linked (u : User) : bool :=
  match student_by_auth_user_id supabase (user_id u) with
  | Returned r =>
      negb (is_lookup_failure (error r))
      && match data r with Some _ => true | None => false end
  | Thrown _ => false
  end.

End onSubmit.

End StudentLogin.

(** ** The teacher dashboard page *)

Module TeacherDashboard.

Import Ui.

(** Row of the [teachers] table. *)
Record TeacherProfile := mkTeacherProfile {
  id : string;
  auth_user_id : string;
  full_name : string;
  email : string;
  subjects_taught : string;
  contact_number : string;
  assigned_classes : option (list string)  (* the code tests it for null *)
}.

(** Row of the [students] table. *)
Record StudentFromSupabase := mkStudent {
  student_id_display : string;
  student_full_name : string;
  date_of_birth : string;
  grade_level : string;
  guardian_name : string;
  guardian_contact : string;
  contact_email : option string
}.

Inductive Audience := All | Students | Teachers.

Record TeacherAnnouncement := mkAnnouncement {
  ann_id : string;
  title : string;
  message : string;
  target_audience : Audience;
  author_name : option string;
  created_at : string
}.

(** The three queries of the page, as the backend answers them. *)
Record Client := mkClient {
  (* [.from('teachers').select(..).eq('auth_user_id', uid).single()] *)
  teacher_by_auth_user_id :
    string → Awaited (Supabase.Response TeacherProfile);
  (* [.from('students').select(..).in('grade_level', classes)] *)
  students_in_grade_levels :
    list string → Awaited (Supabase.Response (list StudentFromSupabase));
  (* [.from('school_announcements').select(..).or(..).order(..)] *)
  school_announcements :
    Awaited (Supabase.Response (list TeacherAnnouncement))
}.

Record Env := mkEnv {
  has_window : bool;            (* [typeof window !== 'undefined'] *)
  supabase : option Client      (* [getSupabase()], kept in [supabaseRef] *)
}.

(** A fetch fails when its promise rejects or its response carries an
    error, which the page throws; [failure] is the error thrown. *)
Definition failure {A} (a : Awaited (Supabase.Response A))
  : option Js.Error :=
  match outcome a with
  | Thrown e => Some e
  | Returned r => Supabase.error r
  end.

(** A fetch is answered with [d] when it resolves to [{ data: d, error:
    null }] while the page stays mounted. *)
Definition answered {A} (a : Awaited (Supabase.Response A)) (d : option A)
  : Prop :=
  unmounts a = false ∧ outcome a = Returned (Supabase.mkResponse d None).

(** The component's [useState] cells and its [isMounted] ref. *)
Record State := mkState {
  teacherProfile : option TeacherProfile;
  studentsByClass : Js.Obj (list StudentFromSupabase);
  announcements : list TeacherAnnouncement;
  isLoading : bool;
  isLoadingAnnouncements : bool;
  announcementsError : option string;
  error : option string;
  isMounted : bool
}.

Definition initial : State :=
  mkState None Js.obj_empty [] true true None None true.

Definition with_teacherProfile (v : option TeacherProfile) (s : State) :=
  mkState v (studentsByClass s) (announcements s) (isLoading s)
    (isLoadingAnnouncements s) (announcementsError s) (error s) (isMounted s).
Definition with_studentsByClass (v : Js.Obj (list StudentFromSupabase))
    (s : State) :=
  mkState (teacherProfile s) v (announcements s) (isLoading s)
    (isLoadingAnnouncements s) (announcementsError s) (error s) (isMounted s).
Definition with_announcements (v : list TeacherAnnouncement) (s : State) :=
  mkState (teacherProfile s) (studentsByClass s) v (isLoading s)
    (isLoadingAnnouncements s) (announcementsError s) (error s) (isMounted s).
Definition with_isLoading (v : bool) (s : State) :=
  mkState (teacherProfile s) (studentsByClass s) (announcements s) v
    (isLoadingAnnouncements s) (announcementsError s) (error s) (isMounted s).
Definition with_isLoadingAnnouncements (v : bool) (s : State) :=
  mkState (teacherProfile s) (studentsByClass s) (announcements s)
    (isLoading s) v (announcementsError s) (error s) (isMounted s).
Definition with_announcementsError (v : option string) (s : State) :=
  mkState (teacherProfile s) (studentsByClass s) (announcements s)
    (isLoading s) (isLoadingAnnouncements s) v (error s) (isMounted s).
Definition with_error (f : option string → option string) (s : State) :=
  mkState (teacherProfile s) (studentsByClass s) (announcements s)
    (isLoading s) (isLoadingAnnouncements s) (announcementsError s)
    (f (error s)) (isMounted s).
Definition with_isMounted (v : bool) (s : State) :=
  mkState (teacherProfile s) (studentsByClass s) (announcements s)
    (isLoading s) (isLoadingAnnouncements s) (announcementsError s)
    (error s) v.

(** [if (isMounted.current) m] *)
Definition whenMounted (m : M State unit) : M State unit :=
  s ← getState; if isMounted s then m else mret tt.

(** [setError(prev => prev ? `${prev} ${msg}` : msg)] *)
Definition appendError (msg : string) : M State unit :=
  setState (with_error (λ prev,
    if Js.truthy prev then Some (default "" prev +:+ " " +:+ msg)
    else Some msg)).

(** The grouping loop:
    [for (const className of classes)
       studentsForTeacher[className] = all.filter(s => s.grade_level === className)] *)
Definition inClass (className : string) (s : StudentFromSupabase) : bool :=
  String.eqb (grade_level s) className.

Definition groupByClass (classes : list string)
    (allAssignedStudents : list StudentFromSupabase)
  : Js.Obj (list StudentFromSupabase) :=
  foldl (λ studentsForTeacher className,
           Js.obj_set studentsForTeacher className
             (List.filter (inClass className) allAssignedStudents))
        Js.obj_empty classes.

Section loadDashboardData.

Variable K : Constants.
Variable env : Env.

Definition await' {A} := @await_page State A (with_isMounted false).

(** The [try] block, first part: the teacher's profile and the students of
    the assigned classes. *)
Definition fetchProfileAndStudents (client : Client) (teacherAuthUid : string)
  : M State unit :=
  profile ← await' (SelectSingle "teachers" "auth_user_id" teacherAuthUid)
                   (teacher_by_auth_user_id client teacherAuthUid);
  match Supabase.error profile with
  | Some profileError => throw profileError
  | None =>
      match Supabase.data profile with
      | Some profileData =>
          whenMounted (setState (with_teacherProfile (Some profileData))) ;;
          match assigned_classes profileData with
          | Some (c :: cs) =>
              students ← await' (SelectIn "students" "grade_level" (c :: cs))
                                (students_in_grade_levels client (c :: cs));
              match Supabase.error students with
              | Some studentsError => throw studentsError
              | None =>
                  let studentsForTeacher :=
                    groupByClass (c :: cs)
                      (default [] (Supabase.data students)) in
                  whenMounted (setState (with_studentsByClass studentsForTeacher))
              end
          | _ => whenMounted (setState (with_studentsByClass Js.obj_empty))
          end
      | None =>
          whenMounted (setState (with_error (λ _,
            Some "Your teacher profile could not be found. Please contact an administrator.")))
      end
  end.

(** The [try] block, second part: the announcements. *)
Definition fetchAnnouncements (client : Client) : M State unit :=
  whenMounted (setState (with_isLoadingAnnouncements true)) ;;
  setState (with_announcementsError None) ;;
  anns ← await' SelectAnnouncements (school_announcements client);
  match Supabase.error anns with
  | Some fetchAnnError => throw fetchAnnError
  | None =>
      whenMounted (setState (with_announcements
                               (default [] (Supabase.data anns))))
  end.

Definition fetchAll (client : Client) (teacherAuthUid : string)
  : M State unit :=
  fetchProfileAndStudents client teacherAuthUid ;;
  fetchAnnouncements client.

(** The [catch] block. *)
Definition onError (e : Js.Error) : M State unit :=
  call (Console Err) ;;
  let errorMessage := Js.or_else (Js.message e) "An unknown error occurred" in
  if Js.includes errorMessage "announcements" then
    whenMounted (setState (with_announcementsError
      (Some ("Failed to load announcements: " +:+ errorMessage))))
  else if Js.includes errorMessage "profile"
          || Js.includes errorMessage "students" then
    whenMounted (appendError ("Failed to load dashboard data: " +:+ errorMessage))
  else
    whenMounted (appendError "An unexpected error occurred.").

Definition loadDashboardData : M State unit :=
  s ← getState;
  match isMounted s, supabase env with
  | true, Some client =>
      setState (with_isLoading true) ;;
      setState (with_error (λ _, None)) ;;
      teacherAuthUid ← (if has_window env
                        then getItem (TEACHER_LOGGED_IN_UID_KEY K)
                        else mret None);
      (if Js.truthy teacherAuthUid then
         finally
           (try_catch (fetchAll client (default "" teacherAuthUid)) onError)
           (whenMounted (setState (with_isLoadingAnnouncements false)))
       else
         whenMounted
           (setState (with_error (λ _, Some "Not authenticated. Please login.")) ;;
            call (RouterPush "/auth/teacher/login"))) ;;
      whenMounted (setState (with_isLoading false))
  | _, _ => mret tt
  end.

(** The effect run on mount. *)
Definition onMount : M State unit :=
  setState (with_isMounted true) ;;
  loadDashboardData.

End loadDashboardData.

(** *** Rendering *)

Record AnnouncementCard := mkCard {
  card_key : string;
  card_title : string;
  card_author : string;
  card_created_at : string;
  card_message : string
}.

Inductive AnnouncementsBody :=
| AnnSpinner
| AnnError (text : string)
| AnnNone
| AnnCards (cards : list AnnouncementCard).

Record AnnouncementsPanel := mkPanel {
  panel_body : AnnouncementsBody;
  view_all : bool   (* the "View All Announcements" affordance *)
}.

Record ClassSection := mkSection {
  section_title : string;
  (* the table of students, or [None] for the "No students found" text *)
  section_rows : option (list StudentFromSupabase)
}.

Record DashboardView := mkDashboard {
  welcome : string;
  quickAccess : list (string * string);
  not_assigned_note : bool;
  class_sections : list ClassSection;
  none_registered_note : bool;
  loading_students_note : bool;
  announcements_panel : AnnouncementsPanel
}.

Inductive Page :=
| LoadingPage
| ProfileIssue (text : string) (login_link hint : bool)
| ProfileNotLoaded
| Dashboard (view : DashboardView).

Definition renderCard (ann : TeacherAnnouncement) : AnnouncementCard :=
  mkCard (ann_id ann) (title ann) (Js.or_else (author_name ann) "Admin")
    (created_at ann) (message ann).

Definition renderAnnouncements (s : State) : AnnouncementsPanel :=
  mkPanel
    (if isLoadingAnnouncements s then AnnSpinner
     else if Js.truthy (announcementsError s)
          then AnnError (default "" (announcementsError s))
     else if (length (announcements s) =? 0)%nat then AnnNone
     else AnnCards (renderCard <$> take 5 (announcements s)))
    (5 <? length (announcements s))%nat.

Definition renderSection (s : State) (className : string) : ClassSection :=
  mkSection className
    (match Js.obj_get (studentsByClass s) className with
     | Some (st :: rest) => Some (st :: rest)
     | _ => None
     end).

Definition renderDashboard (s : State) (p : TeacherProfile) : DashboardView :=
  let classes := default [] (assigned_classes p) in
  let has_classes := (0 <? length classes)%nat in
  mkDashboard
    ("Welcome, " +:+ full_name p +:+ "!")
    [("Mark Attendance", "/teacher/attendance");
     ("Create Assignment", "/teacher/assignments");
     ("Log Behavior", "/teacher/behavior");
     ("Lesson Plan Ideas", "/teacher/lesson-planner")]
    (negb has_classes)
    (renderSection s <$> classes)
    ((0 <? length (Js.obj_keys (studentsByClass s)))%nat
     && forallb (λ l, (length l =? 0)%nat) (Js.obj_values (studentsByClass s))
     && has_classes)
    ((length (Js.obj_keys (studentsByClass s)) =? 0)%nat
     && has_classes && negb (isLoading s))
    (renderAnnouncements s).

Definition render (s : State) : Page :=
  if isLoading s then LoadingPage
  else
    let no_profile :=
      match teacherProfile s with None => true | Some _ => false end in
    match error s with
    | Some err =>
        if Js.truthy (Some err)
           && (no_profile || Js.includes err "profile could not be found")
        then
          ProfileIssue err
            (Js.includes err "Not authenticated")
            ((Js.includes err "profile could not be found"
              || Js.includes err "Failed to load dashboard data")
             && negb (Js.includes err "Not authenticated"))
        else
          match teacherProfile s with
          | None => ProfileNotLoaded
          | Some p => Dashboard (renderDashboard s p)
          end
    | None =>
        match teacherProfile s with
        | None => ProfileNotLoaded
        | Some p => Dashboard (renderDashboard s p)
        end
    end.

End TeacherDashboard.

(** ** The student attendance page *)

Module StudentAttendance.

Import Ui.

(** Fields of a [students] document ([docSnap.data()]). *)
Record StudentData := mkStudentData {
  data_studentId : option string;
  data_fullName : string;
  data_gradeLevel : string
}.

Record RegisteredStudent := mkRegisteredStudent {
  studentId : string;
  fullName : string;
  gradeLevel : string
}.

(** Fields of an [attendanceEntries] document; [date] is the timestamp in
    seconds. *)
Record AttendanceData := mkAttendanceData {
  data_id : option string;
  entry_studentId : string;
  studentName : string;
  className : string;
  date : Z;
  status : string;
  notes : string;
  markedByTeacherName : string
}.

Record AttendanceEntry := mkEntry {
  entry_id : string;
  entry : AttendanceData
}.

(** The document database as the page queries it. *)
Record Firestore := mkFirestore {
  (* [getDoc(doc(db, "students", id))]: [None] when the snapshot does not
     exist *)
  getDoc : string → Awaited (option StudentData);
  (* [getDocs(query(collection(db, "attendanceEntries"),
        where("studentId", "==", id), orderBy("date", "desc")))]:
     document ids with their data *)
  getDocs : string → Awaited (list (string * AttendanceData))
}.

Record Env := mkEnv {
  has_window : bool;
  db : Firestore
}.

Record State := mkState {
  loggedInStudent : option RegisteredStudent;
  attendanceHistory : list AttendanceEntry;
  isLoading : bool;
  error : option string;
  isMounted : bool
}.

Definition initial : State := mkState None [] true None true.

Definition with_loggedInStudent (v : option RegisteredStudent) (s : State) :=
  mkState v (attendanceHistory s) (isLoading s) (error s) (isMounted s).
Definition with_attendanceHistory (v : list AttendanceEntry) (s : State) :=
  mkState (loggedInStudent s) v (isLoading s) (error s) (isMounted s).
Definition with_isLoading (v : bool) (s : State) :=
  mkState (loggedInStudent s) (attendanceHistory s) v (error s) (isMounted s).
Definition with_error (v : option string) (s : State) :=
  mkState (loggedInStudent s) (attendanceHistory s) (isLoading s) v
    (isMounted s).
Definition with_isMounted (v : bool) (s : State) :=
  mkState (loggedInStudent s) (attendanceHistory s) (isLoading s) (error s) v.

Definition whenMounted (m : M State unit) : M State unit :=
  s ← getState; if isMounted s then m else mret tt.

Section fetchStudentDataAndAttendance.

Variable K : Constants.
Variable env : Env.

Definition await' {A} := @await_page State A (with_isMounted false).

(** [{ studentId: snap.id, ...snap.data() }] *)
Definition studentOf (snapId : string) (d : StudentData) : RegisteredStudent :=
  mkRegisteredStudent (default snapId (data_studentId d))
    (data_fullName d) (data_gradeLevel d).

(** [{ id: docSnap.id, ...docSnap.data() }] *)
Definition entryOf (docSnap : string * AttendanceData) : AttendanceEntry :=
  mkEntry (default docSnap.1 (data_id docSnap.2)) docSnap.2.

Definition fetchStudentDataAndAttendance : M State unit :=
  s ← getState;
  if negb (isMounted s) then mret tt
  else
    setState (with_isLoading true) ;;
    setState (with_error None) ;;
    stored ← (if has_window env
              then getItem (CURRENTLY_LOGGED_IN_STUDENT_ID K)
              else mret None);
    if negb (Js.truthy stored) then
      whenMounted
        (setState (with_error
           (Some "Student not identified. Please log in to view attendance.")) ;;
         setState (with_isLoading false))
    else
      let studentId := default "" stored in
      finally
        (try_catch
           (studentDocSnap ← await' (GetDoc "students" studentId)
                                    (getDoc (db env) studentId);
            match studentDocSnap with
            | None =>
                whenMounted
                  (setState (with_error
                     (Some "Student profile not found. Please contact administration.")) ;;
                   setState (with_isLoading false))
            | Some d =>
                whenMounted
                  (setState (with_loggedInStudent
                               (Some (studentOf studentId d)))) ;;
                docs ← await' (GetDocs "attendanceEntries" "studentId" studentId)
                              (getDocs (db env) studentId);
                whenMounted
                  (setState (with_attendanceHistory (entryOf <$> docs)))
            end)
           (λ e,
              call (Console Err) ;;
              whenMounted
                (setState (with_error
                   (Some ("Failed to load data: "
                          +:+ default "undefined" (Js.message e)))))))
        (whenMounted (setState (with_isLoading false))).

Definition onMount : M State unit :=
  setState (with_isMounted true) ;;
  fetchStudentDataAndAttendance.

End fetchStudentDataAndAttendance.

(** *** Rendering *)

Inductive BadgeColor := Green | Red | Yellow.

Record Row := mkRow {
  row_key : string;
  row_date : Z;
  row_class : string;
  row_badge : option BadgeColor;
  row_status : string;
  row_notes : string;
  row_markedBy : string
}.

Inductive Page :=
| LoadingPage
| ErrorCard (text : string) (login_link : bool)
| StudentNotFound    (* with a link to the login page *)
| AttendancePage (student : RegisteredStudent) (rows : list Row).

Definition badge (status : string) : option BadgeColor :=
  if String.eqb status "present" then Some Green
  else if String.eqb status "absent" then Some Red
  else if String.eqb status "late" then Some Yellow
  else None.

Definition renderRow (e : AttendanceEntry) : Row :=
  let d := entry e in
  mkRow (entry_id e) (date d) (className d) (badge (status d))
    (Js.capitalize (status d))
    (if Js.truthy (Some (notes d)) then notes d else "N/A")
    (markedByTeacherName d).

Definition render (s : State) : Page :=
  if isLoading s then LoadingPage
  else if Js.truthy (error s) then
    ErrorCard (default "" (error s))
      (Js.includes (default "" (error s)) "Please log in")
  else
    match loggedInStudent s with
    | None => StudentNotFound
    | Some st => AttendancePage st (renderRow <$> attendanceHistory s)
    end.

(** The text of the error set when no student id is stored. *)
Definition not_identified : string :=
  "Student not identified. Please log in to view attendance.".

End StudentAttendance.

(** ** The remaining collections of the two rule sets *)

Module Policy.

Import Rules.

(** [a || b], left to right: a true left operand decides, a failing one
    fails the condition. *)
Definition rule_or (a b : option bool) : option bool :=
  match a with
  | Some true => Some true
  | Some false => b
  | None => None
  end.

(** [l.hasAny(x)]: both must be lists. *)
Definition hasAny (l x : value) : option bool :=
  match l, x with
  | VList vs, VList xs => Some (existsb (λ y, existsb (value_eqb y) vs) xs)
  | _, _ => None
  end.

(** Reads ([get], [list]) and writes ([create], [update], [delete]). *)
Definition is_write (m : Method) : bool :=
  match m with
  | Get | List => false
  | Create | Update | Delete => true
  end.

(** [request.resource.data]: there is no [request.resource] on a read. *)
Definition written (req : Request) : option (gmap string value) :=
  if is_write (method req) then Some (resource_data req) else None.

(** [request.resource.data.f == request.auth.uid] *)
Definition owns_written (req : Request) (f : string) : option bool :=
  a ← auth req;
  doc ← written req;
  field_eq doc f (VString (uid a)).

(** [resource.data.f == request.auth.uid], [resource] being the stored
    document. *)
Definition owns_stored (resource : option (gmap string value))
    (req : Request) (f : string) : option bool :=
  a ← auth req;
  doc ← resource;
  field_eq doc f (VString (uid a)).

(** The documents the rule sets name. [Elsewhere] stands for every path no
    [match] statement covers. *)
Inductive Path :=
| Students (studentDocId : string)
| Teachers (teacherId : string)
| TeacherSub (teacherId subcollection docId : string)
| AppSettings (settingId : string)
| Payments (paymentId : string)
| Announcements (announcementId : string)
| Assignments (assignmentId : string)
| AssignmentSubmissions (submissionId : string)
| BehaviorIncidents (incidentId : string)
| AttendanceEntries (entryId : string)
| TimetableEntries (entryId : string)
| StudentPreferences (studentDocId : string)
| AcademicResults (resultId : string)
| FeeStructure (feeItemId : string)
| Elsewhere.

Module A.

Import RulesetA.

Section Blocks.

Variable db : Database.
Variable resource : option (gmap string value).
Variable req : Request.

(** [match /teachers/{teacherId}/{subcollection}/{docId}] *)
Definition teacherSub (teacherId : string) : bool :=
  holds (isOwner req teacherId) || holds (isAdmin req).

(** [match /appSettings/{settingId}] *)
Definition appSettings : bool :=
  match method req with
  | Get | List =>
      holds (isAdmin req)
      || holds (rule_or (Some (authenticated req))
                        (Some (negb (authenticated req))))
  | Create | Update | Delete => holds (isAdmin req)
  end.

(** [match /payments/{paymentId}] *)
Definition payments : bool := holds (isAdmin req).

(** [match /announcements/{announcementId}] *)
Definition announcements : bool :=
  match method req with
  | Get | List => true
  | Create | Update | Delete => holds (isAdmin req)
  end.

(** [match /assignments/{assignmentId}] and
    [match /behaviorIncidents/{incidentId}], which read alike. *)
Definition ownedByTeacher : bool :=
  match method req with
  | Create =>
      holds (rule_and (isTeacher db req) (owns_written req "teacherId"))
  | Get | List | Update | Delete =>
      holds (rule_and (isTeacher db req)
                      (owns_stored resource req "teacherId"))
      || holds (isAdmin req)
  end.

Definition assignments : bool := ownedByTeacher.

Definition behaviorIncidents : bool := ownedByTeacher.

(** [match /assignmentSubmissions/{submissionId}] *)
Definition assignmentSubmissions : bool :=
  holds (isTeacher db req) || holds (isAdmin req).

(** [match /attendanceEntries/{entryId}] *)
Definition attendanceEntries : bool :=
  match method req with
  | Create | Update =>
      holds (rule_and (isTeacher db req)
                      (owns_written req "markedByTeacherId"))
      || holds (isAdmin req)
  | Get | List | Delete =>
      holds (rule_and (isTeacher db req)
                      (owns_stored resource req "markedByTeacherId"))
      || holds (isAdmin req)
  end.

(** [match /timetableEntries/{entryId}] *)
Definition timetableEntries : bool :=
  match method req with
  | Create | Update | Delete =>
      holds (rule_and (isTeacher db req) (owns_written req "teacherId"))
      || holds (isAdmin req)
  | Get | List =>
      holds (rule_and (isTeacher db req)
                      (owns_stored resource req "teacherId"))
      || holds (isAdmin req)
      || negb (authenticated req)
  end.

(** [match /studentPreferences/{studentDocId}] *)
Definition studentPreferences : bool := true.

(** [match /academicResults/{resultId}] *)
Definition academicResults : bool :=
  match method req with
  | Create =>
      holds (rule_and (isTeacher db req) (owns_written req "teacherId"))
      || holds (isAdmin req)
  | Update | Delete =>
      holds (rule_and (isTeacher db req)
                      (owns_stored resource req "teacherId"))
      || holds (isAdmin req)
  | Get | List =>
      holds (rule_and (isTeacher db req)
                      (owns_stored resource req "teacherId"))
      || holds (isAdmin req)
      || negb (authenticated req)
  end.

(** The decision of rule set A: a request is granted when the block that
    matches the path grants it; paths without a block are denied. *)
Definition allows (p : Path) : bool :=
  match p with
  | Students studentDocId => students db studentDocId resource req
  | Teachers teacherId => teachers_rule teacherId req
  | TeacherSub teacherId _ _ => teacherSub teacherId
  | AppSettings _ => appSettings
  | Payments _ => payments
  | Announcements _ => announcements
  | Assignments _ => assignments
  | AssignmentSubmissions _ => assignmentSubmissions
  | BehaviorIncidents _ => behaviorIncidents
  | AttendanceEntries _ => attendanceEntries
  | TimetableEntries _ => timetableEntries
  | StudentPreferences _ => studentPreferences
  | AcademicResults _ => academicResults
  | FeeStructure _ | Elsewhere => false
  end.

End Blocks.

End A.

Module B.

Import RulesetB.

Section Blocks.

(** The [teachers] and [students] collections, for [exists] and [get]. *)
Variable db : Database.
Variable studentDocs : gmap string (gmap string value).
Variable resource : option (gmap string value).
Variable req : Request.

(** [isTeacher()], as in rule set A. *)
Definition isTeacher : option bool := RulesetA.isTeacher db req.

(** [isOwner(docId)] *)
Definition isOwner (docId : string) : option bool :=
  RulesetA.isOwner req docId.

(** [request.auth != null && request.auth.uid == resource.data[fieldName]] *)
Definition isFieldOwner (fieldName : string) : option bool :=
  rule_and (Some (authenticated req)) (owns_stored resource req fieldName).

(** [request.auth != null
     && request.auth.uid == request.resource.data[fieldName]] *)
Definition isRequestFieldOwner (fieldName : string) : option bool :=
  rule_and (Some (authenticated req)) (owns_written req fieldName).

(** The stored document's [studentId], as a path segment. *)
Definition stored_studentId : option string :=
  doc ← resource;
  v ← doc !! "studentId";
  match v with VString s => Some s | _ => None end.

(** [exists(.../students/$(resource.data.studentId))] *)
Definition student_exists : option bool :=
  s ← stored_studentId;
  Some (bool_decide (is_Some (studentDocs !! s))).

(** [get(.../teachers/$(request.auth.uid)).data.assignedClasses
       .hasAny(get(.../students/$(resource.data.studentId)).data.gradeLevel)] *)
Definition teaches_student : option bool :=
  a ← auth req;
  t ← teachers db !! uid a;
  classes ← t !! "assignedClasses";
  s ← stored_studentId;
  sdoc ← studentDocs !! s;
  grade ← sdoc !! "gradeLevel";
  hasAny classes grade.

(** [match /teachers/{teacherId}] *)
Definition teachers_rule (teacherId : string) : bool :=
  match method req with
  | Get | List => true
  | Create | Delete => holds (isAdmin req)
  | Update => holds (rule_or (isOwner teacherId) (isAdmin req))
  end.

(** [match /payments/{paymentId}] *)
Definition payments : bool :=
  match method req with
  | Get | List =>
      holds (rule_or (rule_or (isAdmin req)
                              (rule_and isTeacher student_exists))
                     (rule_and (Some (negb (authenticated req)))
                        (doc ← written req;
                         field_eq doc "studentId"
                           (VString "STUDENT_PORTAL_ID_PLACEHOLDER"))))
  | Create | Update | Delete => holds (isAdmin req)
  end.

(** [match /announcements/{announcementId}],
    [match /feeStructure/{feeItemId}] and [match /appSettings/{settingId}],
    which read alike. *)
Definition publicRead : bool :=
  match method req with
  | Get | List => true
  | Create | Update | Delete => holds (isAdmin req)
  end.

(** [match /attendanceEntries/{entryId}] *)
Definition attendanceEntries : bool :=
  match method req with
  | Get | List =>
      holds
        (rule_or
           (rule_or
              (rule_or (isAdmin req)
                 (rule_and isTeacher
                    (owns_stored resource req "markedByTeacherId")))
              (rule_and (rule_and isTeacher student_exists) teaches_student))
           (rule_and (Some (negb (authenticated req)))
              (doc ← resource;
               field_eq doc "studentId"
                 (VString "STUDENT_PORTAL_ID_PLACEHOLDER_FOR_STUDENT_READ"))))
  | Create | Update =>
      holds (rule_and isTeacher (isRequestFieldOwner "markedByTeacherId"))
  | Delete =>
      holds (rule_or (isAdmin req)
               (rule_and isTeacher (isFieldOwner "markedByTeacherId")))
  end.

(** The read rule of [assignments] and [behaviorIncidents]: admins,
    teachers, or the portal placeholder in field [f]. *)
Definition portalRead (f placeholder : string) : bool :=
  holds (rule_or (rule_or (isAdmin req) isTeacher)
           (rule_and (Some (negb (authenticated req)))
              (doc ← resource; field_eq doc f (VString placeholder)))).

(** The write rules shared by [assignments], [behaviorIncidents] and
    [timetableEntries]. *)
Definition teacherWrite : bool :=
  match method req with
  | Create => holds (rule_and isTeacher (isRequestFieldOwner "teacherId"))
  | _ => holds (rule_and isTeacher (isFieldOwner "teacherId"))
  end.

(** [match /assignments/{assignmentId}] *)
Definition assignments : bool :=
  match method req with
  | Get | List => portalRead "classId" "STUDENT_PORTAL_CLASS_ID_PLACEHOLDER"
  | _ => teacherWrite
  end.

(** [match /behaviorIncidents/{incidentId}] *)
Definition behaviorIncidents : bool :=
  match method req with
  | Get | List =>
      portalRead "studentId" "STUDENT_PORTAL_ID_PLACEHOLDER_FOR_STUDENT_READ"
  | _ => teacherWrite
  end.

(** [match /timetableEntries/{entryId}] *)
Definition timetableEntries : bool := teacherWrite.

(** The decision of rule set B. *)
Definition allows (p : Path) : bool :=
  match p with
  | Students studentId => students studentId req
  | Teachers teacherId => teachers_rule teacherId
  | Payments _ => payments
  | Announcements _ | FeeStructure _ | AppSettings _ => publicRead
  | AttendanceEntries _ => attendanceEntries
  | Assignments _ => assignments
  | BehaviorIncidents _ => behaviorIncidents
  | TimetableEntries _ => timetableEntries
  | TeacherSub _ _ _ | AssignmentSubmissions _ | StudentPreferences _
  | AcademicResults _ | Elsewhere => false
  end.

End Blocks.

End B.

End Policy.

(** ** Invariants of handlers *)

Module Inv.

Import Ui.

(** [m] keeps [P]: from a world where [P] holds, [m] ends in a world where
    [P] holds, whether it returns or throws. *)
Definition keeps {R A} (P : World R → Prop) (m : M R A) : Prop :=
  ∀ w, P w → P (m w).2.

(** From a world where [P] holds, [m] ends in a world where [Q] holds. *)
Definition leads {R A} (P : World R → Prop) (m : M R A)
    (Q : World R → Prop) : Prop :=
  ∀ w, P w → Q (m w).2.

(** The component has pushed no route. *)
Definition no_push {R} (w : World R) : Prop :=
  ∀ href, RouterPush href ∉ calls w.

End Inv.

(** ** Pages that stay mounted *)

Module Mounted.

Import Ui.

(** No query of the teacher dashboard is pending when the page is
    unmounted. *)
Definition dashboard (client : TeacherDashboard.Client) : Prop :=
  (∀ uid, unmounts (TeacherDashboard.teacher_by_auth_user_id client uid)
          = false)
  ∧ (∀ classes,
       unmounts (TeacherDashboard.students_in_grade_levels client classes)
       = false)
  ∧ unmounts (TeacherDashboard.school_announcements client) = false.

(** The same for the two queries of the attendance page. *)
Definition attendance (db : StudentAttendance.Firestore) : Prop :=
  (∀ id, unmounts (StudentAttendance.getDoc db id) = false)
  ∧ (∀ id, unmounts (StudentAttendance.getDocs db id) = false).

(** The text of the error set when the teacher has no profile row. *)
Definition profile_not_found : string :=
  "Your teacher profile could not be found. Please contact an administrator.".

End Mounted.

(** * Example inputs *)

Module Examples.

Import Rules.

(** A caller whose token carries the claim [isAdmin] with value [v]. *)
Definition caller (v : value) : Auth := mkAuth "u1" {[ "isAdmin" := v ]}.

(** A create of a student document whose [studentId] field is ["S2"]. *)
Definition create_S2 (a : option Auth) : Request :=
  mkRequest a Create {[ "studentId" := VString "S2" ]}.

Definition no_db : Database := mkDatabase ∅.

Definition keys : Constants :=
  mkConstants "admin_logged_in" "teacher_uid" "student_id".

Definition credentials : LoginForm.Values :=
  LoginForm.mkValues "Ama@School.edu" "secret".

(** An account with the role of an ordinary authenticated user. *)
Definition ama : Supabase.User :=
  Supabase.mkUser "uid-ama" (Some "ama@school.edu") None (Some "authenticated").

(** An auth provider that signs [ama] in; the [students] table has no row
    for her: the lookup answers with the no-rows code. *)
Definition provider_without_profile : Supabase.Auth :=
  Supabase.mkAuth
    (λ _ _, Ui.Returned
       (Supabase.mkAuthResponse (Some ama) (Some (Supabase.mkSession "jwt"))
          None))
    (λ _, Ui.Returned
       (Supabase.mkResponse None
          (Some (Js.mkError (Some "no rows") (Some "PGRST116")))))
    false.

(** The same provider, with a [students] row linked to the account. *)
Definition provider_with_profile : Supabase.Auth :=
  Supabase.mkAuth
    (Supabase.signInWithPassword provider_without_profile)
    (λ uid, Ui.Returned
       (Supabase.mkResponse
          (Some (Supabase.mkStudentProfile (Some "Ama Mensah") uid)) None))
    false.

(** A document database with no documents. *)
Definition empty_firestore : StudentAttendance.Firestore :=
  StudentAttendance.mkFirestore
    (λ _, Ui.mkAwaited false (Ui.Returned None))
    (λ _, Ui.mkAwaited false (Ui.Returned [])).

Definition browser : StudentAttendance.Env :=
  StudentAttendance.mkEnv true empty_firestore.

(** A backend for the teacher dashboard that answers every query with no
    rows and no error. *)
Definition empty_backend : TeacherDashboard.Client :=
  TeacherDashboard.mkClient
    (λ _, Ui.mkAwaited false (Ui.Returned (Supabase.mkResponse None None)))
    (λ _, Ui.mkAwaited false (Ui.Returned (Supabase.mkResponse (Some []) None)))
    (Ui.mkAwaited false (Ui.Returned (Supabase.mkResponse (Some []) None))).

Definition teacher_browser : TeacherDashboard.Env :=
  TeacherDashboard.mkEnv true (Some empty_backend).

Definition answer {A} (d : A) : Ui.Awaited (Supabase.Response A) :=
  Ui.mkAwaited false (Ui.Returned (Supabase.mkResponse (Some d) None)).

Definition refuse {A} (msg : string) : Ui.Awaited (Supabase.Response A) :=
  Ui.mkAwaited false
    (Ui.Returned (Supabase.mkResponse None (Some (Js.mkError (Some msg) None)))).

Definition teacher (classes : list string) : TeacherDashboard.TeacherProfile :=
  TeacherDashboard.mkTeacherProfile "t1" "uid-kofi" "Kofi Boateng"
    "kofi@school.edu" "Mathematics" "0200000000" (Some classes).

Definition student (sid grade : string) : TeacherDashboard.StudentFromSupabase :=
  TeacherDashboard.mkStudent sid "Student" "2014-01-01" grade "Guardian"
    "0240000000" None.

Definition announcement (n : string) : TeacherDashboard.TeacherAnnouncement :=
  TeacherDashboard.mkAnnouncement n ("Notice " +:+ n) "Body"
    TeacherDashboard.Teachers None "2024-01-01T00:00:00Z".

(** The browser of a teacher who logged in as [uid-kofi]. *)
Definition kofi_storage : gmap string string := {[ "teacher_uid" := "uid-kofi" ]}.

(** A backend where the teacher is assigned [classes], the students query
    answers [all] and the announcements query answers [anns]. *)
Definition backend (classes : list string)
    (all : list TeacherDashboard.StudentFromSupabase)
    (anns : Ui.Awaited (Supabase.Response
                          (list TeacherDashboard.TeacherAnnouncement)))
  : TeacherDashboard.Env :=
  TeacherDashboard.mkEnv true
    (Some (TeacherDashboard.mkClient (λ _, answer (teacher classes))
             (λ _, answer all) anns)).

(** A backend whose [teachers] query fails. *)
Definition backend_without_teachers : TeacherDashboard.Env :=
  TeacherDashboard.mkEnv true
    (Some (TeacherDashboard.mkClient (λ _, refuse "permission denied")
             (λ _, answer [])
             (answer [announcement "1"]))).

End Examples.

(** ** Further example inputs *)

Module Cases.

Import Rules.

(** A request of a caller who is not signed in. *)
Definition anonymous (m : Method) : Request := mkRequest None m ∅.

(** A registered teacher, whose token carries no claim, and the [teachers]
    collection that holds the profile. *)
Definition kofi : Auth := mkAuth "uid-kofi" ∅.

Definition school : Database :=
  mkDatabase {[ "uid-kofi" := {[ "assignedClasses" := VList [VString "5A"] ]} ]}.

Definition by_kofi (m : Method) (doc : gmap string value) : Request :=
  mkRequest (Some kofi) m doc.

Definition by_admin (m : Method) (doc : gmap string value) : Request :=
  mkRequest (Some (Examples.caller (VBool true))) m doc.

(** An assignment set by that teacher. *)
Definition homework : gmap string value :=
  {[ "teacherId" := VString "uid-kofi"; "classId" := VString "5A" ]}.

(** An attendance entry that carries the portal's placeholder. *)
Definition portal_entry : gmap string value :=
  {[ "studentId" := VString "STUDENT_PORTAL_ID_PLACEHOLDER_FOR_STUDENT_READ" ]}.

(** The address of [Examples.credentials] in lower case. *)
Definition lower_credentials : LoginForm.Values :=
  LoginForm.mkValues "ama@school.edu" "secret".

(** An auth provider that refuses the password. *)
Definition provider_refusing : Supabase.Auth :=
  Supabase.mkAuth
    (λ _ _, Ui.Returned
       (Supabase.mkAuthResponse None None
          (Some (Js.mkError (Some "Invalid login credentials") None))))
    (λ _, Ui.Returned (Supabase.mkResponse None None))
    false.

(** An auth provider that cannot be reached. *)
Definition provider_unreachable : Supabase.Auth :=
  Supabase.mkAuth
    (λ _ _, Ui.Thrown (Js.mkError (Some "TypeError: Failed to fetch") None))
    (λ _, Ui.Returned (Supabase.mkResponse None None))
    false.

(** An auth provider whose error carries no message. *)
Definition provider_silent : Supabase.Auth :=
  Supabase.mkAuth
    (λ _ _, Ui.Returned
       (Supabase.mkAuthResponse None None (Some (Js.mkError None None))))
    (λ _, Ui.Returned (Supabase.mkResponse None None))
    false.

(** A teacher dashboard without a backend client. *)
Definition no_client : TeacherDashboard.Env := TeacherDashboard.mkEnv true None.

(** A backend whose profile query is answered after the page was left. *)
Definition left_early : TeacherDashboard.Client :=
  TeacherDashboard.mkClient
    (λ _, Ui.mkAwaited true
            (Ui.Returned (Supabase.mkResponse (Some (Examples.teacher ["5A"]))
                            None)))
    (λ _, Examples.answer [])
    (Examples.answer [Examples.announcement "1"]).


(** A backend whose profile query fails with a message that names the
    announcements. *)
Definition misfiled : TeacherDashboard.Client :=
  TeacherDashboard.mkClient
    (λ _, Examples.refuse "could not reach announcements service")
    (λ _, Examples.answer [])
    (Examples.answer []).

(** A dashboard state whose roster groups one student under two classes. *)
Definition two_classes : TeacherDashboard.State :=
  TeacherDashboard.with_studentsByClass
    (TeacherDashboard.groupByClass ["5A"; "5B"] [Examples.student "S1" "5A"])
    (TeacherDashboard.with_isLoading false TeacherDashboard.initial).

(** The browser of a student who logged in as [S1]. *)
Definition ama_storage : gmap string string := {[ "student_id" := "S1" ]}.

Definition ama_data : StudentAttendance.StudentData :=
  StudentAttendance.mkStudentData None "Ama Mensah" "5A".

Definition present_on_monday : string * StudentAttendance.AttendanceData :=
  ("S1_2024-01-08",
   StudentAttendance.mkAttendanceData None "S1" "Ama Mensah" "5A"
     1704672000 "present" "" "Kofi Boateng").

(** A document database with the student's profile and one entry. *)
Definition registry : StudentAttendance.Env :=
  StudentAttendance.mkEnv true
    (StudentAttendance.mkFirestore
       (λ _, Ui.mkAwaited false (Ui.Returned (Some ama_data)))
       (λ _, Ui.mkAwaited false (Ui.Returned [present_on_monday]))).

(** A document database that cannot be reached. *)
Definition offline : StudentAttendance.Env :=
  StudentAttendance.mkEnv true
    (StudentAttendance.mkFirestore
       (λ _, Ui.mkAwaited false (Ui.Thrown (Js.mkError (Some "offline") None)))
       (λ _, Ui.mkAwaited false (Ui.Returned []))).

(** The registry, answering after the page was left. *)
Definition registry_left_early : StudentAttendance.Env :=
  StudentAttendance.mkEnv true
    (StudentAttendance.mkFirestore
       (λ _, Ui.mkAwaited true (Ui.Returned (Some ama_data)))
       (λ _, Ui.mkAwaited false (Ui.Returned [present_on_monday]))).

End Cases.

(** * Properties *)

(** ** Strings *)

Section JsFacts.

Import Js.

Lemma prefix_app (needle hay : string) :
  String.prefix needle hay = true ↔ ∃ post, hay = needle +:+ post.
Proof.
  revert hay. induction needle as [|c needle IH]; intros hay.
  - split; [intros _; by exists hay|]. by destruct hay.
  - destruct hay as [|c' hay]; simpl; [split; [done|by intros [? ?]]|].
    destruct (Ascii.ascii_dec c c') as [->|Hne].
    + rewrite IH. split; intros [post H]; exists post;
        [simpl; by rewrite H | by injection H].
    + split; [done|]. intros [post [= ? _]]. done.
Qed.

(** [includes hay needle] holds exactly when [needle] is a substring of
    [hay]. *)
Lemma includes_substring (hay needle : string) :
  includes hay needle = true ↔ ∃ pre post, hay = pre +:+ needle +:+ post.
Proof.
  induction hay as [|c hay IH]; cbn [includes].
  - rewrite orb_false_r, prefix_app. split.
    + intros [post H]. by exists "", post.
    + intros (pre & post & H). destruct pre; [by exists post|done].
  - rewrite orb_true_iff, prefix_app, IH. split.
    + intros [[post H]|(pre & post & H)].
      * by exists "", post.
      * exists (String c pre), post. simpl. by rewrite H.
    + intros (pre & post & H). destruct pre as [|c' pre]; simpl in H.
      * left. by exists post.
      * right. injection H as -> H. by exists pre, post.
Qed.

Example includes_inside :
  includes "Failed to load announcements: timeout" "announcements" = true.
Proof. reflexivity. Qed.

Example includes_case_sensitive :
  includes "Announcements unavailable" "announcements" = false.
Proof. reflexivity. Qed.

Example toLowerCase_message :
  toLowerCase "Invalid Login Credentials" = "invalid login credentials".
Proof. reflexivity. Qed.

Example capitalize_status : capitalize "present" = "Present".
Proof. reflexivity. Qed.

End JsFacts.

(** ** Security rules *)

Section RulesFacts.

Import Rules.

Lemma holds_rule_and a b :
  holds (rule_and a b) = true ↔ holds a = true ∧ holds b = true.
Proof. destruct a as [[]|]; simpl; intuition discriminate. Qed.

Lemma value_eqb_bool v b : value_eqb v (VBool b) = true ↔ v = VBool b.
Proof.
  destruct v as [|x| | |]; simpl; split; try congruence.
  - intros H. apply Bool.eqb_prop in H. congruence.
  - intros [= ->]. apply Bool.eqb_reflx.
Qed.

Lemma value_eqb_string v s : value_eqb v (VString s) = true ↔ v = VString s.
Proof.
  destruct v as [| | |x|]; simpl; split; try congruence.
  - intros H. apply String.eqb_eq in H. congruence.
  - intros [= ->]. apply String.eqb_refl.
Qed.

Lemma holds_field_eq_bool m f b :
  holds (field_eq m f (VBool b)) = true ↔ m !! f = Some (VBool b).
Proof.
  unfold field_eq. destruct (m !! f) as [v|]; simpl; [|by split].
  destruct (value_eqb v (VBool b)) eqn:E; simpl.
  - apply value_eqb_bool in E. by subst.
  - split; [done|]. intros [= ->].
    rewrite (proj2 (value_eqb_bool _ _) eq_refl) in E. done.
Qed.

Lemma holds_field_eq_string m f s :
  holds (field_eq m f (VString s)) = true ↔ m !! f = Some (VString s).
Proof.
  unfold field_eq. destruct (m !! f) as [v|]; simpl; [|by split].
  destruct (value_eqb v (VString s)) eqn:E; simpl.
  - apply value_eqb_string in E. by subst.
  - split; [done|]. intros [= ->].
    rewrite (proj2 (value_eqb_string _ _) eq_refl) in E. done.
Qed.

Lemma isAdmin_A_holds req :
  holds (RulesetA.isAdmin req) = true ↔
  ∃ a, auth req = Some a ∧ token a !! "isAdmin" = Some (VBool true).
Proof.
  unfold RulesetA.isAdmin, authenticated.
  destruct (auth req) as [a|]; simpl.
  - rewrite holds_field_eq_bool. split; [eauto|]. by intros (? & [= <-] & ?).
  - split; [done|]. by intros (? & ? & ?).
Qed.

(** C1. In ruleset A, [isAdmin()] holds exactly for an authenticated request
    whose token carries the claim [isAdmin] with the boolean value [true];
    it does not hold for an unauthenticated request, nor for a caller whose
    token lacks the claim, carries it as [false], or carries the string
    ["true"]. *)
Theorem isAdmin_strict (req : Request) :
  (holds (RulesetA.isAdmin req) = true ↔
     ∃ a, auth req = Some a ∧ token a !! "isAdmin" = Some (VBool true))
  ∧ (auth req = None → holds (RulesetA.isAdmin req) = false)
  ∧ (∀ a, auth req = Some a →
       token a !! "isAdmin" = None
       ∨ token a !! "isAdmin" = Some (VBool false)
       ∨ token a !! "isAdmin" = Some (VString "true") →
       holds (RulesetA.isAdmin req) = false).
Proof.
  split; [apply isAdmin_A_holds|]. split.
  - intros Hnone. apply not_true_is_false. rewrite isAdmin_A_holds.
    intros (a & Ha & _). congruence.
  - intros a Ha Hclaim. apply not_true_is_false. rewrite isAdmin_A_holds.
    intros (a' & Ha' & Hc). assert (a' = a) as -> by congruence.
    destruct Hclaim as [H|[H|H]]; congruence.
Qed.

Lemma isAdmin_strict_witness :
  holds (RulesetA.isAdmin (Examples.create_S2
           (Some (Examples.caller (VString "true"))))) = false.
Proof.
  apply (proj2 (proj2 (isAdmin_strict _)) (Examples.caller (VString "true"))).
  - reflexivity.
  - right; right. reflexivity.
Defined.

Lemma students_create_A db docId resource req :
  method req = Create →
  RulesetA.students db docId resource req = true ↔
  holds (RulesetA.isAdmin req) = true
  ∧ resource_data req !! "studentId" = Some (VString docId).
Proof.
  intros Hm. unfold RulesetA.students. rewrite Hm.
  by rewrite holds_rule_and, holds_field_eq_string.
Qed.

(** C2, as the code has it. In ruleset A a create on [students] is granted
    exactly when [isAdmin()] holds and the submitted [studentId] equals the
    document key, so that every caller's create with another [studentId] is
    rejected. The [students] rule of ruleset B has no such check: it grants
    a create exactly when the caller is authenticated. *)
Theorem students_create_key_check
    (db : Database) (docId : string) (resource : option (gmap string value))
    (req : Request) :
  method req = Create →
  (RulesetA.students db docId resource req = true ↔
     holds (RulesetA.isAdmin req) = true
     ∧ resource_data req !! "studentId" = Some (VString docId))
  ∧ (resource_data req !! "studentId" ≠ Some (VString docId) →
     RulesetA.students db docId resource req = false)
  ∧ (RulesetB.students docId req = true ↔ is_Some (auth req)).
Proof.
  intros Hm. split; [by apply students_create_A|]. split.
  - intros Hne. apply not_true_is_false.
    rewrite students_create_A by done. tauto.
  - unfold RulesetB.students, RulesetB.isAdmin, authenticated. rewrite Hm.
    destruct (auth req); simpl; split; eauto; try done.
Qed.

Lemma students_create_key_check_witness :
  RulesetA.students Examples.no_db "S1" None
    (Examples.create_S2 (Some (Examples.caller (VBool true)))) = false.
Proof.
  apply (proj1 (proj2 (students_create_key_check Examples.no_db "S1" None
                         (Examples.create_S2 _) eq_refl))).
  vm_compute. congruence.
Defined.

(** C2 as stated fails on ruleset B: an authenticated caller creates the
    document with key ["S1"] although the submitted [studentId] is ["S2"]. *)
Lemma students_create_mismatch_granted_B :
  let req := Examples.create_S2 (Some (Examples.caller (VBool false))) in
  method req = Create
  ∧ resource_data req !! "studentId" = Some (VString "S2")
  ∧ VString "S2" ≠ VString "S1"
  ∧ RulesetB.students "S1" req = true.
Proof. vm_compute. repeat split; congruence. Qed.

End RulesFacts.

(** ** Tactics for running handlers *)

(** Unfold the monad's operations until the handler is a case tree. *)
Ltac run :=
  repeat (progress (
    unfold Ui.exec, Ui.mount, Ui.try_catch, Ui.finally, mbind, Ui.M_bind,
      Ui.bind, mret, Ui.M_ret, Ui.ret, Ui.throw, Ui.await, Ui.await_page,
      Ui.call, Ui.setState, Ui.getState, Ui.getItem, Ui.setItem,
      Supabase.signOut, LoginForm.setLoginError in *;
    cbv zeta in *; simpl in *)).

(** Follow every remaining branch of the goal. *)
Ltac paths :=
  repeat (
    match goal with
    | |- context [if ?b then _ else _] => destruct b eqn:?
    | |- context [match ?x with Some _ => _ | None => _ end] =>
        destruct x eqn:?
    | |- context [match ?x with Ui.Returned _ => _ | Ui.Thrown _ => _ end] =>
        destruct x eqn:?
    end; run).

(** [c ∈ l] and [c ∉ l] for an explicit list of calls. *)
Ltac called :=
  by (repeat first [ by apply list_elem_of_here | apply list_elem_of_further ]).

Ltac not_called :=
  let H := fresh in
  intros H; repeat (apply elem_of_cons in H as [H|H]; [discriminate H|]);
  by apply elem_of_nil in H.

(** ** Handlers that leave local storage alone *)

Section Frames.

Import Ui.

Context {R : Type}.

Lemma frames_ret {A} (a : A) : frames (mret a : M R A).
Proof. done. Qed.

Lemma frames_throw {A} e : frames (@throw R A e).
Proof. done. Qed.

Lemma frames_bind {A B} (m : M R A) (k : A → M R B) :
  frames m → (∀ a, frames (k a)) → frames (m ≫= k).
Proof.
  intros Hm Hk w. unfold mbind, M_bind, bind. specialize (Hm w).
  destruct (m w) as [[a|e] w']; simpl in *; [|done].
  by rewrite Hk.
Qed.

Lemma frames_try_catch {A} (m : M R A) h :
  frames m → (∀ e, frames (h e)) → frames (try_catch m h).
Proof.
  intros Hm Hh w. unfold try_catch. specialize (Hm w).
  destruct (m w) as [[a|e] w']; simpl in *; [done|].
  by rewrite Hh.
Qed.

Lemma frames_finally {A} (m : M R A) f :
  frames m → frames f → frames (finally m f).
Proof.
  intros Hm Hf w. unfold finally. specialize (Hm w).
  destruct (m w) as [o w']; simpl in *. specialize (Hf w').
  destruct (f w') as [[[]|e] w'']; simpl in *; congruence.
Qed.

Lemma frames_call c : frames (@call R c).
Proof. done. Qed.

Lemma frames_await {A} c (o : Outcome A) : frames (@await R A c o).
Proof. done. Qed.

Lemma frames_setState f : frames (@setState R f).
Proof. done. Qed.

Lemma frames_getState : frames (@getState R).
Proof. done. Qed.

Lemma frames_getItem k : frames (@getItem R k).
Proof. done. Qed.

Lemma frames_if {A} (b : bool) (m1 m2 : M R A) :
  frames m1 → frames m2 → frames (if b then m1 else m2).
Proof. by destruct b. Qed.

Lemma frames_signOut sb : frames (@Supabase.signOut R sb).
Proof.
  apply frames_bind; [apply frames_call|]. intros _.
  apply frames_if; [apply frames_call | apply frames_ret].
Qed.

End Frames.

Create HintDb frames.
#[export] Hint Resolve frames_ret frames_throw frames_call frames_await
  frames_setState frames_getState frames_getItem frames_signOut : frames.

(** Split a handler along its structure, down to the primitive calls. *)
Ltac solve_frames :=
  repeat first
    [ progress auto with frames
    | apply frames_bind; [|intros ?]
    | apply frames_try_catch; [|intros ?]
    | apply frames_finally
    | apply frames_if
    | match goal with
      | |- Ui.frames (match ?x with _ => _ end) => destruct x
      end ].

(** ** The login forms *)

Section LoginFacts.

Import Ui Supabase LoginForm.

Lemma StudentLogin_onSubmit_frames sb v :
  frames (StudentLogin.onSubmit sb v).
Proof.
  unfold StudentLogin.onSubmit, StudentLogin.on_auth_error,
    StudentLogin.on_exception, setLoginError.
  solve_frames.
Qed.

(** C6. The admin form checks no role: whenever the sign-in resolves with a
    user and a session (and no error), whatever the account and its role,
    the handler, run in the browser ([window] defined), sets the
    admin-logged-in flag in local storage, shows the welcome toast and
    navigates to [/admin/dashboard]; it neither signs out nor reports an
    error. *)
Theorem admin_login_defers_role_check
    (K : Constants) (sb : Supabase.Auth) (v : Values) (r : State)
    (st : gmap string string) (resp : AuthResponse) (u : User)
    (sess : Session) :
  signInWithPassword sb (Js.toLowerCase (email v)) (password v)
    = Returned resp →
  auth_error resp = None →
  user resp = Some u →
  session resp = Some sess →
  let w := exec (AdminLogin.onSubmit K true sb v) (mkWorld r st []) in
  localStorage w !! ADMIN_LOGGED_IN_KEY K = Some "true"
  ∧ calls w =
      [SignInWithPassword (Js.toLowerCase (email v)) (password v);
       Toast "Login Successful"
         ("Welcome back, " +:+ Js.or_else (user_full_name u) "Admin"
          +:+ "! Redirecting to dashboard...");
       RouterPush "/admin/dashboard"]
  ∧ loginError (react w) = None.
Proof.
  intros Hs He Hu Hse. unfold AdminLogin.onSubmit. run.
  rewrite Hs. run. rewrite He, Hu, Hse. run.
  by rewrite lookup_insert_eq.
Qed.

Lemma admin_login_defers_role_check_witness :
  let w := exec (AdminLogin.onSubmit Examples.keys true
                   Examples.provider_without_profile Examples.credentials)
             (mkWorld initial ∅ []) in
  localStorage w !! "admin_logged_in" = Some "true"
  ∧ RouterPush "/admin/dashboard" ∈ calls w.
Proof.
  destruct (admin_login_defers_role_check Examples.keys
              Examples.provider_without_profile Examples.credentials
              initial ∅ _ Examples.ama (mkSession "jwt")
              eq_refl eq_refl eq_refl eq_refl) as (Hflag & Hcalls & _).
  split; [exact Hflag|]. rewrite Hcalls. called.
Defined.

(** C5. The student form navigates to [/student/dashboard] exactly when (a)
    the sign-in succeeds with a user and a session and (b) the lookup finds
    a student row linked to that user; whenever one of the two fails (auth
    error, missing user or session, lookup failure other than [PGRST116],
    no row, or a rejected call) the handler signs out, sets the login error
    and navigates nowhere. *)
Theorem student_login_gate
    (sb : Supabase.Auth) (v : Values) (r : State) (st : gmap string string) :
  let w := exec (StudentLogin.onSubmit sb v) (mkWorld r st []) in
  (RouterPush "/student/dashboard" ∈ calls w ↔
     ∃ u, StudentLogin.auth_succeeds sb v = Some u
          ∧ StudentLogin.profile_linked sb u = true)
  ∧ ((∀ u, StudentLogin.auth_succeeds sb v = Some u →
           StudentLogin.profile_linked sb u = false) →
     SignOut ∈ calls w
     ∧ (∀ href, RouterPush href ∉ calls w)
     ∧ Js.truthy (loginError (react w)) = true).
Proof.
  unfold StudentLogin.auth_succeeds, StudentLogin.profile_linked,
    StudentLogin.onSubmit, StudentLogin.on_auth_error,
    StudentLogin.on_exception.
  run.
  destruct (signOut_rejects sb) eqn:Hrej;
  (destruct (signInWithPassword sb _ _) as [resp|e]; run;
   [destruct (auth_error resp) as [ae|]; run;
    [|destruct (user resp) as [u|]; run;
      [destruct (session resp) as [se|]; run;
       [destruct (student_by_auth_user_id sb (user_id u))
          as [pr|pe] eqn:Hlookup; run;
        [destruct (StudentLogin.is_lookup_failure (error pr)) eqn:Hfail; run;
         [|destruct (data pr) eqn:Hdata; run]|]|]|]]|]).
  all: paths.
  (* no user reached the lookup *)
  all: try (split; [split; [not_called | by intros (? & ? & ?)]|];
            intros _; split; [called|];
            split; [intros href; not_called|done]).
  (* the lookup did not yield a row *)
  all: try (split;
            [split; [not_called
                    | intros (u0 & [= <-] & Hp); rewrite Hlookup in Hp;
                      simpl in Hp; rewrite ?Hfail, ?Hdata in Hp; done]|];
            intros _; split; [called|];
            split; [intros href; not_called|done]).
  (* both conditions hold *)
  all: split;
    [split; [intros _; exists u; by rewrite Hlookup, Hfail, Hdata
            | intros _; called]|].
  all: intros Hx; specialize (Hx u eq_refl);
    by rewrite Hlookup, Hfail, Hdata in Hx.
Qed.

Lemma student_login_gate_witness :
  let w := exec (StudentLogin.onSubmit Examples.provider_without_profile
                   Examples.credentials) (mkWorld initial ∅ []) in
  SignOut ∈ calls w
  ∧ (∀ href, RouterPush href ∉ calls w)
  ∧ Js.truthy (loginError (react w)) = true.
Proof.
  apply (proj2 (student_login_gate Examples.provider_without_profile
                  Examples.credentials initial ∅)).
  intros u [= <-]. reflexivity.
Defined.

End LoginFacts.

(** ** Pages opened without a stored identity *)

Section AbsentIdentity.

Import Ui.

(** Without the stored student id the attendance page makes no call at all
    and ends with the "not identified" error. *)
Lemma attendance_not_identified K env (st : gmap string string) :
  st !! CURRENTLY_LOGGED_IN_STUDENT_ID K = None →
  exec (StudentAttendance.onMount K env)
       (mount StudentAttendance.initial st)
  = mkWorld (StudentAttendance.mkState None [] false (Some StudentAttendance.not_identified) true)
      st [].
Proof.
  intros Hk. unfold StudentAttendance.onMount,
    StudentAttendance.fetchStudentDataAndAttendance,
    StudentAttendance.whenMounted.
  run. destruct (StudentAttendance.has_window env); run; [rewrite Hk|]; done.
Qed.

Lemma teacher_not_authenticated K env client (st : gmap string string) :
  TeacherDashboard.supabase env = Some client →
  st !! TEACHER_LOGGED_IN_UID_KEY K = None →
  exec (TeacherDashboard.onMount K env) (mount TeacherDashboard.initial st)
  = mkWorld
      (TeacherDashboard.mkState None Js.obj_empty [] false true None
         (Some "Not authenticated. Please login.") true)
      st [RouterPush "/auth/teacher/login"].
Proof.
  intros Hc Hk. unfold TeacherDashboard.onMount,
    TeacherDashboard.loadDashboardData, TeacherDashboard.whenMounted.
  run. rewrite Hc. run.
  destruct (TeacherDashboard.has_window env); run; [rewrite Hk|]; done.
Qed.

(** C8. With the stored student id absent, the attendance page sets the
    "not identified" error, renders the error card with the login link and
    makes no call (so no navigation); with the stored teacher uid absent,
    the teacher dashboard sets the "not authenticated" error and pushes the
    teacher login route. *)
Theorem absent_identity_handling
    (K : Constants) (aenv : StudentAttendance.Env)
    (tenv : TeacherDashboard.Env) (client : TeacherDashboard.Client)
    (st : gmap string string) :
  (st !! CURRENTLY_LOGGED_IN_STUDENT_ID K = None →
   let w := exec (StudentAttendance.onMount K aenv)
              (mount StudentAttendance.initial st) in
   StudentAttendance.error (react w) = Some StudentAttendance.not_identified
   ∧ StudentAttendance.render (react w)
     = StudentAttendance.ErrorCard StudentAttendance.not_identified true
   ∧ calls w = [])
  ∧ (TeacherDashboard.supabase tenv = Some client →
     st !! TEACHER_LOGGED_IN_UID_KEY K = None →
     let w := exec (TeacherDashboard.onMount K tenv)
                (mount TeacherDashboard.initial st) in
     TeacherDashboard.error (react w)
       = Some "Not authenticated. Please login."
     ∧ calls w = [RouterPush "/auth/teacher/login"]).
Proof.
  split.
  - intros Hk. cbv zeta. by rewrite attendance_not_identified.
  - intros Hc Hk. cbv zeta. by rewrite (teacher_not_authenticated _ _ client).
Qed.

Lemma absent_identity_handling_witness :
  calls (exec (StudentAttendance.onMount Examples.keys Examples.browser)
           (mount StudentAttendance.initial ∅)) = []
  ∧ calls (exec (TeacherDashboard.onMount Examples.keys
                   Examples.teacher_browser)
             (mount TeacherDashboard.initial ∅))
    = [RouterPush "/auth/teacher/login"].
Proof.
  destruct (absent_identity_handling Examples.keys Examples.browser
              Examples.teacher_browser Examples.empty_backend ∅)
    as [Hs Ht].
  split.
  - apply Hs. reflexivity.
  - apply Ht; reflexivity.
Defined.

(** C10. The student form's submit handler leaves local storage as it was,
    on every path. In particular, if the student-id key was absent before
    the login it is absent after it, and the attendance page opened next
    reports the student as not identified. *)
Theorem student_login_writes_no_storage
    (K : Constants) (sb : Supabase.Auth) (v : LoginForm.Values)
    (w : World LoginForm.State) (env : StudentAttendance.Env) :
  localStorage (exec (StudentLogin.onSubmit sb v) w) = localStorage w
  ∧ (localStorage w !! CURRENTLY_LOGGED_IN_STUDENT_ID K = None →
     let page := exec (StudentAttendance.onMount K env)
                   (mount StudentAttendance.initial
                      (localStorage (exec (StudentLogin.onSubmit sb v) w))) in
     StudentAttendance.error (react page) = Some StudentAttendance.not_identified
     ∧ StudentAttendance.render (react page)
       = StudentAttendance.ErrorCard StudentAttendance.not_identified true).
Proof.
  assert (localStorage (exec (StudentLogin.onSubmit sb v) w) = localStorage w)
    as Hframe by apply StudentLogin_onSubmit_frames.
  split; [exact Hframe|].
  intros Hk. cbv zeta. rewrite Hframe.
  by rewrite attendance_not_identified.
Qed.

Lemma student_login_writes_no_storage_witness :
  let after := exec (StudentLogin.onSubmit Examples.provider_with_profile
                       Examples.credentials)
                 (mkWorld LoginForm.initial ∅ []) in
  RouterPush "/student/dashboard" ∈ calls after
  ∧ StudentAttendance.render
      (react (exec (StudentAttendance.onMount Examples.keys Examples.browser)
                (mount StudentAttendance.initial (localStorage after))))
    = StudentAttendance.ErrorCard StudentAttendance.not_identified true.
Proof.
  split.
  - vm_compute. called.
  - apply (proj2 (student_login_writes_no_storage Examples.keys
                    Examples.provider_with_profile Examples.credentials
                    (mkWorld LoginForm.initial ∅ []) Examples.browser)).
    reflexivity.
Defined.

End AbsentIdentity.

(** ** Objects used as records *)

Section ObjFacts.

Import Js.

Context {V : Type}.
Implicit Types (o : Obj V) (k : string) (v : V).

Lemma obj_set_wf o k v : obj_wf o → obj_wf (obj_set o k v).
Proof.
  unfold obj_wf, obj_set. intros Hwf.
  destruct (String.eqb_spec k "__proto__") as [->|Hne]; simpl; [done|].
  by rewrite lookup_insert_ne.
Qed.

Lemma obj_get_set_eq o k v : obj_wf o → obj_get (obj_set o k v) k = Some v.
Proof.
  unfold obj_wf, obj_get, obj_set. intros Hwf.
  destruct (String.eqb_spec k "__proto__") as [->|Hne]; simpl.
  - by rewrite Hwf.
  - by rewrite lookup_insert_eq.
Qed.

Lemma obj_get_set_ne o k k' v :
  k ≠ k' → obj_get (obj_set o k v) k' = obj_get o k'.
Proof.
  unfold obj_get, obj_set. intros Hne.
  destruct (String.eqb_spec k "__proto__") as [->|Hk]; simpl.
  - destruct (own o !! k'); [done|].
    by destruct (String.eqb_spec k' "__proto__") as [->|].
  - by rewrite lookup_insert_ne.
Qed.

Lemma obj_set_dom o k v :
  dom (own (obj_set o k v))
  = if String.eqb k "__proto__" then dom (own o) else {[k]} ∪ dom (own o).
Proof.
  unfold obj_set. destruct (String.eqb k "__proto__"); simpl; [done|].
  by rewrite dom_insert_L.
Qed.

Lemma elem_of_obj_keys o k : k ∈ obj_keys o ↔ k ∈ dom (own o).
Proof.
  unfold obj_keys. rewrite elem_of_dom, list_elem_of_fmap. split.
  - intros ([k' v] & -> & Hin). apply elem_of_map_to_list in Hin. eauto.
  - intros [v Hv]. exists (k, v). split; [done|]. by apply elem_of_map_to_list.
Qed.

Lemma NoDup_obj_keys o : NoDup (obj_keys o).
Proof. apply NoDup_fst_map_to_list. Qed.

End ObjFacts.

(** ** The teacher dashboard: grouping students by class *)

Section GroupFacts.

Import Js TeacherDashboard.

Implicit Types (classes : list string) (all : list StudentFromSupabase).

Lemma groupByClass_snoc classes c all :
  groupByClass (classes ++ [c]) all
  = obj_set (groupByClass classes all) c (List.filter (inClass c) all).
Proof. unfold groupByClass. by rewrite foldl_snoc. Qed.

Lemma groupByClass_wf classes all : obj_wf (groupByClass classes all).
Proof.
  induction classes as [|c classes IH] using rev_ind; [done|].
  rewrite groupByClass_snoc. by apply obj_set_wf.
Qed.

(** The keys are the assigned class names, each once, [__proto__] apart. *)
Lemma groupByClass_keys classes all k :
  k ∈ obj_keys (groupByClass classes all) ↔ k ∈ classes ∧ k ≠ "__proto__".
Proof.
  rewrite elem_of_obj_keys.
  induction classes as [|c classes IH] using rev_ind.
  - unfold groupByClass; simpl. rewrite dom_empty_L, elem_of_empty.
    split; [done|]. by intros [?%elem_of_nil _].
  - rewrite groupByClass_snoc, obj_set_dom, elem_of_app, list_elem_of_singleton.
    destruct (String.eqb_spec c "__proto__") as [->|Hne].
    + rewrite IH. intuition congruence.
    + rewrite elem_of_union, elem_of_singleton, IH. intuition congruence.
Qed.

Lemma groupByClass_get classes all c :
  c ∈ classes →
  obj_get (groupByClass classes all) c = Some (List.filter (inClass c) all).
Proof.
  induction classes as [|c' classes IH] using rev_ind;
    [by intros ?%elem_of_nil|].
  rewrite groupByClass_snoc. intros Hin.
  destruct (decide (c' = c)) as [->|Hne].
  - apply obj_get_set_eq, groupByClass_wf.
  - rewrite obj_get_set_ne by done. apply IH.
    apply elem_of_app in Hin as [?|Hin]; [done|].
    apply list_elem_of_singleton in Hin. congruence.
Qed.

Lemma groupByClass_keys_le classes all :
  (length (obj_keys (groupByClass classes all)) ≤ length classes)%nat.
Proof.
  apply submseteq_length, NoDup_submseteq; [apply NoDup_obj_keys|].
  intros k Hk. by apply groupByClass_keys in Hk as [? _].
Qed.

Lemma groupByClass_keys_distinct classes all :
  NoDup classes → "__proto__" ∉ classes →
  length (obj_keys (groupByClass classes all)) = length classes.
Proof.
  intros Hnd Hproto. apply Permutation_length, NoDup_Permutation;
    [apply NoDup_obj_keys|done|].
  intros k. rewrite groupByClass_keys. intuition congruence.
Qed.

Lemma elem_of_inClass c all s :
  s ∈ List.filter (inClass c) all ↔ s ∈ all ∧ grade_level s = c.
Proof.
  by rewrite !list_elem_of_In, filter_In; unfold inClass; rewrite String.eqb_eq.
Qed.

End GroupFacts.

(** ** The teacher dashboard: the load sequence *)

Section LoadFacts.

Import Ui Js TeacherDashboard.

Variables (K : Constants) (env : Env) (client : Client).
Variables (st : gmap string string) (uid : string).
Hypothesis Hclient : supabase env = Some client.
Hypothesis Hwindow : has_window env = true.
Hypothesis Huid : st !! TEACHER_LOGGED_IN_UID_KEY K = Some uid.
Hypothesis Hne : uid ≠ "".

(** The page once its effect has run to the end. *)
Let loaded : World State := exec (onMount K env) (mount initial st).

Lemma load_start :
  loaded
  = exec ((finally (try_catch (fetchAll client uid) onError)
             (whenMounted (setState (with_isLoadingAnnouncements false)))) ;;
          whenMounted (setState (with_isLoading false)))
      (mount initial st).
Proof.
  unfold loaded, onMount, loadDashboardData. run.
  rewrite Hclient, Hwindow. run. rewrite Huid.
  by destruct uid.
Qed.

Ltac unfold_load :=
  rewrite load_start;
  unfold answered, failure, fetchAll, fetchProfileAndStudents,
    fetchAnnouncements, onError, whenMounted, appendError, await' in *.

Lemma profile_failure_skips_announcements e :
  failure (teacher_by_auth_user_id client uid) = Some e →
  (SelectAnnouncements ∉ calls loaded)
  ∧ announcements (react loaded) = [].
Proof.
  unfold_load.
  destruct (teacher_by_auth_user_id client uid) as [[] [r|e']]; simpl.
  all: intros He; run; rewrite ?He; run; paths.
  all: split; [not_called|done].
Qed.

Lemma students_failure_skips_announcements p c cs e :
  outcome (teacher_by_auth_user_id client uid)
    = Returned (Supabase.mkResponse (Some p) None) →
  assigned_classes p = Some (c :: cs) →
  failure (students_in_grade_levels client (c :: cs)) = Some e →
  (SelectAnnouncements ∉ calls loaded)
  ∧ announcements (react loaded) = [].
Proof.
  unfold_load. intros Hp Hc.
  destruct (teacher_by_auth_user_id client uid) as [[] op]; simpl in Hp;
    subst op.
  all: destruct (students_in_grade_levels client (c :: cs))
         as [[] [r|e']] eqn:Hs; simpl.
  all: intros He; run; rewrite Hc; run; rewrite Hs; run; rewrite ?He; run;
    paths.
  all: split; [not_called|done].
Qed.

(** What the first part of the load leaves in the state, whatever becomes of
    the announcements. *)
Lemma loaded_roster p d :
  answered (teacher_by_auth_user_id client uid) (Some p) →
  (∀ c cs, assigned_classes p = Some (c :: cs) →
           answered (students_in_grade_levels client (c :: cs)) d) →
  SelectAnnouncements ∈ calls loaded
  ∧ teacherProfile (react loaded) = Some p
  ∧ studentsByClass (react loaded)
    = groupByClass (default [] (assigned_classes p)) (default [] d).
Proof.
  unfold_load. intros [Hum Hp] Hs.
  destruct (school_announcements client) as [[] [ra|ea]] eqn:Ha.
  all: run; rewrite Hum, Hp; run.
  all: destruct (assigned_classes p) as [[|c cs]|] eqn:Hc; run.
  all: try (destruct (Hs c cs eq_refl) as [Hus Hos]; rewrite Hus, Hos; run).
  all: paths.
  all: split; [called|done].
Qed.

(** An announcements failure whose text names the announcements reaches
    only the announcements panel; the dashboard is rendered around it. *)
Lemma announcements_failure_shown p d e :
  answered (teacher_by_auth_user_id client uid) (Some p) →
  (∀ c cs, assigned_classes p = Some (c :: cs) →
           answered (students_in_grade_levels client (c :: cs)) d) →
  unmounts (school_announcements client) = false →
  failure (school_announcements client) = Some e →
  let msg := or_else (Js.message e) "An unknown error occurred" in
  includes msg "announcements" = true →
  error (react loaded) = None
  ∧ render (react loaded) = Dashboard (renderDashboard (react loaded) p)
  ∧ panel_body (renderAnnouncements (react loaded))
    = AnnError ("Failed to load announcements: " +:+ msg).
Proof.
  intros Hp Hs Hua Hfa msg Hinc. subst msg. unfold_load.
  destruct Hp as [Hum Hp]. run. rewrite Hum, Hp; run.
  destruct (assigned_classes p) as [[|c cs]|] eqn:Hc; run.
  all: try (destruct (Hs c cs eq_refl) as [Hus Hos]; rewrite Hus, Hos; run).
  all: rewrite Hua; run.
  all: destruct (outcome (school_announcements client)) as [ra|ea]; run;
    [rewrite Hfa | injection Hfa as ->]; run; rewrite Hinc; run.
  all: unfold render, renderAnnouncements; by simpl.
Qed.

(** With every fetch answered, the load ends in a state that holds exactly
    what was fetched. *)
Lemma loaded_all p d da :
  answered (teacher_by_auth_user_id client uid) (Some p) →
  (∀ c cs, assigned_classes p = Some (c :: cs) →
           answered (students_in_grade_levels client (c :: cs)) d) →
  answered (school_announcements client) da →
  react loaded
  = mkState (Some p)
      (groupByClass (default [] (assigned_classes p)) (default [] d))
      (default [] da) false false None None true.
Proof.
  unfold_load. intros [Hum Hp] Hs [Hua Hoa].
  run. rewrite Hum, Hp; run.
  destruct (assigned_classes p) as [[|c cs]|] eqn:Hc; run.
  all: try (destruct (Hs c cs eq_refl) as [Hus Hos]; rewrite Hus, Hos; run).
  all: by rewrite Hua, Hoa.
Qed.

(** With no assigned classes no error is set, unless the announcements
    fail. *)
Lemma loaded_no_classes p :
  answered (teacher_by_auth_user_id client uid) (Some p) →
  default [] (assigned_classes p) = [] →
  failure (school_announcements client) = None →
  error (react loaded) = None.
Proof.
  unfold_load. intros [Hum Hp] Hc Hfa.
  run. rewrite Hum, Hp; run.
  destruct (school_announcements client) as [[] [ra|ea]]; simpl in Hfa;
    [| done | | done].
  all: destruct (assigned_classes p) as [[|c cs]|]; [|done|]; run.
  all: by rewrite Hfa.
Qed.

(** C3, as the code has it. The load keeps two error states, but runs its
    fetches in one sequence: when the teacher-profile fetch or the students
    fetch fails, the announcements fetch is never issued and the
    announcements stay empty; when it is the announcements fetch that
    fails, the profile and the students fetched before stay in the state,
    and if the error text names the announcements only the announcements
    panel shows it, inside the rendered dashboard. *)
Theorem load_failure_isolation :
  (∀ e, failure (teacher_by_auth_user_id client uid) = Some e →
        (SelectAnnouncements ∉ calls loaded)
        ∧ announcements (react loaded) = [])
  ∧ (∀ p c cs e,
       outcome (teacher_by_auth_user_id client uid)
         = Returned (Supabase.mkResponse (Some p) None) →
       assigned_classes p = Some (c :: cs) →
       failure (students_in_grade_levels client (c :: cs)) = Some e →
       (SelectAnnouncements ∉ calls loaded)
       ∧ announcements (react loaded) = [])
  ∧ (∀ p d e,
       answered (teacher_by_auth_user_id client uid) (Some p) →
       (∀ c cs, assigned_classes p = Some (c :: cs) →
                answered (students_in_grade_levels client (c :: cs)) d) →
       failure (school_announcements client) = Some e →
       SelectAnnouncements ∈ calls loaded
       ∧ teacherProfile (react loaded) = Some p
       ∧ studentsByClass (react loaded)
         = groupByClass (default [] (assigned_classes p)) (default [] d)
       ∧ (unmounts (school_announcements client) = false →
          let msg := or_else (Js.message e) "An unknown error occurred" in
          includes msg "announcements" = true →
          error (react loaded) = None
          ∧ render (react loaded)
            = Dashboard (renderDashboard (react loaded) p)
          ∧ panel_body (renderAnnouncements (react loaded))
            = AnnError ("Failed to load announcements: " +:+ msg))).
Proof.
  split; [exact profile_failure_skips_announcements|].
  split; [exact students_failure_skips_announcements|].
  intros p d e Hp Hs He.
  destruct (loaded_roster p d Hp Hs) as (Hcall & Hprofile & Hroster).
  repeat split; try done.
  all: by eapply announcements_failure_shown.
Qed.

(** C4, as the code has it. The mapping is keyed by class name: its keys are
    the distinct assigned class names (a name is a key once however often
    it is assigned, and the reserved name [__proto__] is never an own key),
    so it has at most N keys, and exactly N when the N names are pairwise
    distinct and none is [__proto__]. Every assigned class name, also one
    without students, maps to the fetched students whose [grade_level] is
    that name, in the fetched order; with no assigned classes the mapping
    is empty and no error is set. *)
Theorem roster_by_class (p : TeacherProfile)
    (d : option (list StudentFromSupabase)) :
  answered (teacher_by_auth_user_id client uid) (Some p) →
  (∀ c cs, assigned_classes p = Some (c :: cs) →
           answered (students_in_grade_levels client (c :: cs)) d) →
  let classes := default [] (assigned_classes p) in
  let all := default [] d in
  let roster := studentsByClass (react loaded) in
  (∀ k, k ∈ obj_keys roster ↔ k ∈ classes ∧ k ≠ "__proto__")
  ∧ NoDup (obj_keys roster)
  ∧ (length (obj_keys roster) ≤ length classes)%nat
  ∧ (NoDup classes → "__proto__" ∉ classes →
     length (obj_keys roster) = length classes)
  ∧ (∀ c, c ∈ classes →
          obj_get roster c = Some (List.filter (inClass c) all))
  ∧ (∀ c s, s ∈ List.filter (inClass c) all ↔ s ∈ all ∧ grade_level s = c)
  ∧ (classes = [] →
     roster = obj_empty
     ∧ (failure (school_announcements client) = None →
        error (react loaded) = None)).
Proof.
  intros Hp Hs classes all roster.
  destruct (loaded_roster p d Hp Hs) as (_ & _ & Hroster).
  subst roster. rewrite Hroster. fold classes all.
  split; [apply groupByClass_keys|].
  split; [apply NoDup_obj_keys|].
  split; [apply groupByClass_keys_le|].
  split; [apply groupByClass_keys_distinct|].
  split; [intros c; apply groupByClass_get|].
  split; [intros c s; apply elem_of_inClass|].
  intros Hnil. rewrite Hnil. split; [done|].
  by apply (loaded_no_classes p).
Qed.

End LoadFacts.

(** ** The teacher dashboard: the announcements panel *)

Section AnnouncementsPanel.

Import Ui Js TeacherDashboard.

(** C9. The announcements panel shows the first five announcements of the
    list in the state, in order, hence at most five cards, and the "view
    all" affordance exactly when the list has more than five entries; this
    panel is the one of every rendered dashboard; and after a load in which
    every fetch is answered, the list is the returned one and the dashboard
    is rendered. *)
Theorem announcements_panel_limit :
  (∀ s : State,
     let panel := renderAnnouncements s in
     (∀ cards, panel_body panel = AnnCards cards →
        cards = renderCard <$> take 5 (announcements s)
        ∧ (length cards ≤ 5)%nat)
     ∧ (view_all panel = true ↔ (5 < length (announcements s))%nat))
  ∧ (∀ (s : State) view,
       render s = Dashboard view →
       announcements_panel view = renderAnnouncements s)
  ∧ (∀ K env client (st : gmap string string) uid p d da,
       supabase env = Some client →
       has_window env = true →
       st !! TEACHER_LOGGED_IN_UID_KEY K = Some uid →
       uid ≠ "" →
       answered (teacher_by_auth_user_id client uid) (Some p) →
       (∀ c cs, assigned_classes p = Some (c :: cs) →
                answered (students_in_grade_levels client (c :: cs)) d) →
       answered (school_announcements client) da →
       let loaded := exec (onMount K env) (mount initial st) in
       let anns := default [] da in
       ∃ view,
         render (react loaded) = Dashboard view
         ∧ announcements_panel view
           = mkPanel
               (if (length anns =? 0)%nat then AnnNone
                else AnnCards (renderCard <$> take 5 anns))
               (5 <? length anns)%nat).
Proof.
  split.
  - intros s panel. subst panel. unfold renderAnnouncements. simpl. split.
    + intros cards Hbody.
      assert (cards = renderCard <$> take 5 (announcements s)) as ->.
      { destruct (isLoadingAnnouncements s); [done|].
        destruct (truthy (announcementsError s)); [done|].
        destruct (length (announcements s) =? 0)%nat; [done|].
        by injection Hbody. }
      split; [done|]. rewrite length_fmap, length_take. lia.
    + apply Nat.ltb_lt.
  - split.
    { intros s view. unfold render.
      destruct (isLoading s); [done|].
      destruct (error s) as [err|], (teacherProfile s) as [p|]; simpl;
        repeat case_match; try done; by intros [= <-]. }
    intros K env client st uid p d da Hc Hw Hu Hne Hp Hs Ha loaded anns.
    subst loaded.
    rewrite (loaded_all K env client st uid Hc Hw Hu Hne p d da Hp Hs Ha).
    eexists. split; [reflexivity|]. done.
Qed.

End AnnouncementsPanel.

(** ** The teacher dashboard: routing of load errors *)

Section ErrorRouting.

Import Ui Js TeacherDashboard.

(** C7, as the code has it. In the load's error handler, an error whose
    text contains "announcements" never touches the profile/students error
    and (component mounted) sets the announcements error; an error whose
    text contains "profile" or "students" and does not contain
    "announcements" never touches the announcements error and (component
    mounted) sets the profile/students error, appended to the one already
    there. *)
Theorem error_routing (e : Js.Error) (w : World State) :
  let msg := or_else (Js.message e) "An unknown error occurred" in
  let w' := exec (onError e) w in
  (includes msg "announcements" = true →
     error (react w') = error (react w)
     ∧ (isMounted (react w) = true →
        announcementsError (react w')
          = Some ("Failed to load announcements: " +:+ msg)))
  ∧ (includes msg "announcements" = false →
     includes msg "profile" || includes msg "students" = true →
     announcementsError (react w') = announcementsError (react w)
     ∧ (isMounted (react w) = true →
        error (react w')
          = Some (if truthy (error (react w))
                  then default "" (error (react w)) +:+ " "
                       +:+ "Failed to load dashboard data: " +:+ msg
                  else "Failed to load dashboard data: " +:+ msg))).
Proof.
  intros msg w'. subst msg w'. unfold onError, whenMounted, appendError.
  split.
  - intros ->. run. by destruct (isMounted (react w)).
  - intros -> ->. run. destruct (isMounted (react w)); run; [|done].
    split; [done|]. intros _. by destruct (truthy (error (react w))).
Qed.

End ErrorRouting.

(** ** The teacher dashboard: instances *)

Section DashboardInstances.

Import Ui Js TeacherDashboard.

Lemma load_failure_isolation_witness :
  (let loaded := exec (onMount Examples.keys Examples.backend_without_teachers)
                   (mount initial Examples.kofi_storage) in
   (SelectAnnouncements ∉ calls loaded) ∧ announcements (react loaded) = [])
  ∧ (let loaded :=
       exec (onMount Examples.keys
               (Examples.backend ["5A"] [Examples.student "S1" "5A"]
                  (Examples.refuse "announcements unavailable")))
            (mount initial Examples.kofi_storage) in
     teacherProfile (react loaded) = Some (Examples.teacher ["5A"])
     ∧ panel_body (renderAnnouncements (react loaded))
       = AnnError "Failed to load announcements: announcements unavailable").
Proof.
  split.
  - apply (proj1 (load_failure_isolation Examples.keys
                    Examples.backend_without_teachers _ Examples.kofi_storage
                    "uid-kofi" eq_refl eq_refl eq_refl ltac:(discriminate))
             (mkError (Some "permission denied") None)).
    reflexivity.
  - destruct (proj2 (proj2 (load_failure_isolation Examples.keys
                (Examples.backend ["5A"] [Examples.student "S1" "5A"]
                   (Examples.refuse "announcements unavailable"))
                _ Examples.kofi_storage "uid-kofi"
                eq_refl eq_refl eq_refl ltac:(discriminate)))
              (Examples.teacher ["5A"]) (Some [Examples.student "S1" "5A"])
              (mkError (Some "announcements unavailable") None)
              (conj eq_refl eq_refl) (λ _ _ _, conj eq_refl eq_refl) eq_refl)
      as (_ & Hprofile & _ & Hshown).
    split; [exact Hprofile|]. apply Hshown; reflexivity.
Defined.

(** C3 as stated fails: the [teachers] query is refused, the announcements
    query would have been answered with one announcement, and the load ends
    without having issued it; the page shows the error card. *)
Lemma profile_failure_blocks_announcements :
  let env := Examples.backend_without_teachers in
  let loaded := exec (onMount Examples.keys env)
                  (mount initial Examples.kofi_storage) in
  (∃ client, supabase env = Some client
     ∧ is_Some (failure (teacher_by_auth_user_id client "uid-kofi"))
     ∧ school_announcements client
       = Examples.answer [Examples.announcement "1"])
  ∧ calls loaded
    = [SelectSingle "teachers" "auth_user_id" "uid-kofi"; Console Err]
  ∧ announcements (react loaded) = []
  ∧ render (react loaded)
    = ProfileIssue "An unexpected error occurred." false false.
Proof.
  split; [eexists; split; [reflexivity|]; split; [by eexists|reflexivity]|].
  by vm_compute.
Qed.

Lemma roster_by_class_witness :
  let loaded :=
    exec (onMount Examples.keys
            (Examples.backend ["5A"; "5B"] [Examples.student "S1" "5A"]
               (Examples.answer [])))
         (mount initial Examples.kofi_storage) in
  obj_get (studentsByClass (react loaded)) "5A"
    = Some [Examples.student "S1" "5A"]
  ∧ obj_get (studentsByClass (react loaded)) "5B" = Some [].
Proof.
  pose proof (roster_by_class Examples.keys
                (Examples.backend ["5A"; "5B"] [Examples.student "S1" "5A"]
                   (Examples.answer []))
                _ Examples.kofi_storage "uid-kofi"
                eq_refl eq_refl eq_refl ltac:(discriminate)
                (Examples.teacher ["5A"; "5B"])
                (Some [Examples.student "S1" "5A"])
                (conj eq_refl eq_refl)
                (λ _ _ _, conj eq_refl eq_refl))
    as (_ & _ & _ & _ & Hget & _).
  split; apply Hget; [apply list_elem_of_here|].
  apply list_elem_of_further, list_elem_of_here.
Defined.

(** C4 as stated fails: a teacher assigned the class ["5A"] twice has two
    assigned classes and a mapping with the single key ["5A"]. *)
Lemma duplicate_class_one_key :
  let classes := ["5A"; "5A"] in
  let loaded :=
    exec (onMount Examples.keys
            (Examples.backend classes [Examples.student "S1" "5A"]
               (Examples.answer [])))
         (mount initial Examples.kofi_storage) in
  teacherProfile (react loaded) = Some (Examples.teacher classes)
  ∧ length classes = 2
  ∧ obj_keys (studentsByClass (react loaded)) = ["5A"]
  ∧ length (obj_keys (studentsByClass (react loaded))) ≠ length classes.
Proof. vm_compute. repeat split; congruence. Qed.

(** The reserved class name: assigning to [__proto__] replaces the
    object's prototype and creates no key. *)
Lemma reserved_class_name_no_key :
  let roster := groupByClass ["__proto__"] [Examples.student "S1" "__proto__"] in
  obj_keys roster = []
  ∧ obj_get roster "__proto__" = Some [Examples.student "S1" "__proto__"].
Proof. by vm_compute. Qed.

Lemma error_routing_witness :
  let e := mkError (Some "could not read students") None in
  let w' := exec (onError e) (mount initial ∅) in
  announcementsError (react w') = None
  ∧ error (react w')
    = Some "Failed to load dashboard data: could not read students".
Proof.
  destruct (proj2 (error_routing (mkError (Some "could not read students") None)
                     (mount initial ∅)) eq_refl eq_refl) as [Hann Herr].
  split; [exact Hann|]. apply Herr. reflexivity.
Defined.

(** C7 as stated fails: the text of this error contains "students", and the
    handler sets the announcements error and leaves the profile/students
    error empty, because the text also contains "announcements". *)
Lemma students_error_routed_to_announcements :
  let e := mkError (Some "no students for announcements") None in
  let w := mount initial ∅ in
  let w' := exec (onError e) w in
  isMounted (react w) = true
  ∧ includes "no students for announcements" "students" = true
  ∧ error (react w') = None
  ∧ announcementsError (react w')
    = Some "Failed to load announcements: no students for announcements"
  ∧ announcementsError (react w') ≠ announcementsError (react w).
Proof. vm_compute. repeat split; congruence. Qed.

Lemma announcements_panel_limit_witness :
  let loaded :=
    exec (onMount Examples.keys
            (Examples.backend [] []
               (Examples.answer (Examples.announcement <$>
                                   ["1"; "2"; "3"; "4"; "5"; "6"]))))
         (mount initial Examples.kofi_storage) in
  ∃ view,
    render (react loaded) = Dashboard view
    ∧ announcements_panel view
      = mkPanel
          (AnnCards (renderCard ∘ Examples.announcement <$>
                       ["1"; "2"; "3"; "4"; "5"]))
          true.
Proof.
  destruct (proj2 (proj2 announcements_panel_limit) Examples.keys
              (Examples.backend [] []
                 (Examples.answer (Examples.announcement <$>
                                     ["1"; "2"; "3"; "4"; "5"; "6"])))
              _ Examples.kofi_storage "uid-kofi"
              (Examples.teacher []) (Some [])
              (Some (Examples.announcement <$> ["1"; "2"; "3"; "4"; "5"; "6"]))
              eq_refl eq_refl eq_refl ltac:(discriminate)
              (conj eq_refl eq_refl)
              (λ c cs H, ltac:(discriminate H))
              (conj eq_refl eq_refl))
    as (view & Hrender & Hpanel).
  exists view. split; [exact Hrender|]. rewrite Hpanel. reflexivity.
Defined.

End DashboardInstances.

(** * Further properties *)

(** ** Invariants of handlers *)

Section InvFacts.

Import Ui Inv.

Context {R : Type}.
Implicit Types (P : World R → Prop).

Lemma keeps_ret {A} P (a : A) : keeps P (mret a : M R A).
Proof. by intros w. Qed.

Lemma keeps_throw {A} P e : keeps P (@throw R A e).
Proof. by intros w. Qed.

Lemma keeps_getState P : keeps P (@getState R).
Proof. by intros w. Qed.

Lemma keeps_getItem P k : keeps P (@getItem R k).
Proof. by intros w. Qed.

Lemma keeps_bind {A B} P (m : M R A) (k : A → M R B) :
  keeps P m → (∀ a, keeps P (k a)) → keeps P (m ≫= k).
Proof.
  intros Hm Hk w Hw. unfold mbind, M_bind, bind. specialize (Hm w Hw).
  destruct (m w) as [[a|e] w']; simpl in *; [|done].
  by apply Hk.
Qed.

Lemma keeps_try_catch {A} P (m : M R A) h :
  keeps P m → (∀ e, keeps P (h e)) → keeps P (try_catch m h).
Proof.
  intros Hm Hh w Hw. unfold try_catch. specialize (Hm w Hw).
  destruct (m w) as [[a|e] w']; simpl in *; [done|].
  by apply Hh.
Qed.

Lemma keeps_finally {A} P (m : M R A) f :
  keeps P m → keeps P f → keeps P (finally m f).
Proof.
  intros Hm Hf w Hw. unfold finally. specialize (Hm w Hw).
  destruct (m w) as [o w']; simpl in *. specialize (Hf w' Hm).
  by destruct (f w') as [[[]|e] w''].
Qed.

Lemma keeps_if {A} P (b : bool) (m1 m2 : M R A) :
  keeps P m1 → keeps P m2 → keeps P (if b then m1 else m2).
Proof. by destruct b. Qed.

Lemma keeps_setState P f :
  (∀ w, P w → P (mkWorld (f (react w)) (localStorage w) (calls w))) →
  keeps P (setState f).
Proof. intros H w Hw. by apply H. Qed.

Lemma keeps_call P c :
  (∀ w, P w → P (mkWorld (react w) (localStorage w) (calls w ++ [c]))) →
  keeps P (call c).
Proof. intros H w Hw. by apply H. Qed.

Lemma keeps_await {A} P c (o : Outcome A) :
  (∀ w, P w → P (mkWorld (react w) (localStorage w) (calls w ++ [c]))) →
  keeps P (await c o).
Proof. intros H w Hw. by apply H. Qed.

Lemma keeps_await_page {A} P cleanup c (a : Awaited A) :
  (∀ w, P w → P (mkWorld (cleanup (react w)) (localStorage w) (calls w))) →
  (∀ w, P w → P (mkWorld (react w) (localStorage w) (calls w ++ [c]))) →
  keeps P (await_page cleanup c a).
Proof.
  intros Hc Ha. unfold await_page. apply keeps_bind.
  - apply keeps_if; [by apply keeps_setState | apply keeps_ret].
  - intros _. by apply keeps_await.
Qed.

(** A call other than [router.push] pushes no route. *)
Lemma no_push_call (w : World R) c :
  (∀ href, c ≠ RouterPush href) →
  no_push w →
  no_push (mkWorld (react w) (localStorage w) (calls w ++ [c])).
Proof.
  intros Hc Hw href. simpl. rewrite elem_of_app, list_elem_of_singleton.
  intros [H|H]; [by apply (Hw href)|]. by apply (Hc href).
Qed.

(** Sequencing: once [m] has established [Q], a continuation that keeps
    [Q] ends in [Q]; likewise under [try], [catch] and [finally]. *)
Lemma leads_bind {A B} P Q (m : M R A) (k : A → M R B) :
  leads P m Q → (∀ a, keeps Q (k a)) → leads P (m ≫= k) Q.
Proof.
  intros Hm Hk w Hw. unfold mbind, M_bind, bind. specialize (Hm w Hw).
  destruct (m w) as [[a|e] w']; simpl in *; [|done].
  by apply Hk.
Qed.

Lemma leads_try_catch {A} P Q (m : M R A) h :
  leads P m Q → (∀ e, keeps Q (h e)) → leads P (try_catch m h) Q.
Proof.
  intros Hm Hh w Hw. unfold try_catch. specialize (Hm w Hw).
  destruct (m w) as [[a|e] w']; simpl in *; [done|].
  by apply Hh.
Qed.

Lemma leads_finally {A} P Q (m : M R A) f :
  leads P m Q → keeps Q f → leads P (finally m f) Q.
Proof.
  intros Hm Hf w Hw. unfold finally. specialize (Hm w Hw).
  destruct (m w) as [o w']; simpl in *. specialize (Hf w' Hm).
  by destruct (f w') as [[[]|e] w''].
Qed.

Lemma leads_exec {A} (m : M R A) Q w0 :
  leads (λ w, w = w0) m Q → Q (exec m w0).
Proof. intros H. by apply H. Qed.

(** Running a prefix that returns. *)
Lemma leads_run {A B} (m : M R A) (k : A → M R B) Q w0 a w1 :
  m w0 = (Returned a, w1) →
  leads (λ w, w = w1) (k a) Q →
  leads (λ w, w = w0) (m ≫= k) Q.
Proof.
  intros Hm Hk w ->. unfold mbind, M_bind, bind. rewrite Hm. by apply Hk.
Qed.

End InvFacts.

(** Split a handler along its structure; what is left are the updates of
    the state and the calls. *)
Ltac keeps_steps :=
  repeat first
    [ apply keeps_ret | apply keeps_throw | apply keeps_getState
    | apply keeps_getItem
    | apply keeps_await_page
    | apply keeps_setState
    | apply keeps_call
    | apply keeps_await
    | apply keeps_try_catch; [|intros ?]
    | apply keeps_finally
    | apply keeps_bind; [|intros ?]
    | apply keeps_if
    | match goal with
      | |- Inv.keeps _ (match ?x with _ => _ end) => destruct x
      end ].

(** ** Security rules: the whole policy *)

Section PolicyFacts.

Import Rules Policy.

Implicit Types (db : Database) (req : Request) (p : Path).
Implicit Types (resource : option (gmap string value)).

Lemma isAdmin_authenticated req :
  holds (RulesetA.isAdmin req) = true → authenticated req = true.
Proof.
  intros (a & Ha & _)%isAdmin_A_holds. unfold authenticated. by rewrite Ha.
Qed.

Lemma isTeacher_holds db req :
  holds (RulesetA.isTeacher db req) = true ↔
  ∃ a, auth req = Some a ∧ is_Some (teachers db !! uid a).
Proof.
  unfold RulesetA.isTeacher, authenticated.
  destruct (auth req) as [a|]; simpl.
  - case_bool_decide; simpl; split; eauto; try done.
    by intros (? & [= <-] & ?).
  - split; [done|]. by intros (? & ? & ?).
Qed.

Lemma isOwner_holds req t :
  holds (RulesetA.isOwner req t) = true ↔
  ∃ a, auth req = Some a ∧ uid a = t.
Proof.
  unfold RulesetA.isOwner, authenticated.
  destruct (auth req) as [a|]; simpl.
  - destruct (String.eqb_spec (uid a) t); simpl; split; eauto; try done.
    intros (? & [= <-] & ?). done.
  - split; [done|]. by intros (? & ? & ?).
Qed.

Lemma owns_written_holds req f :
  holds (owns_written req f) = true ↔
  ∃ a, auth req = Some a ∧ is_write (method req) = true
       ∧ resource_data req !! f = Some (VString (uid a)).
Proof.
  unfold owns_written, written.
  destruct (auth req) as [a|]; simpl; [|split; [done|by intros (? & ? & ?)]].
  destruct (is_write (method req)); simpl.
  - rewrite holds_field_eq_string. split; [eauto|].
    by intros (? & [= <-] & _ & ?).
  - split; [done|]. by intros (? & _ & ? & _).
Qed.

Lemma owns_stored_holds resource req f :
  holds (owns_stored resource req f) = true ↔
  ∃ a doc, auth req = Some a ∧ resource = Some doc
           ∧ doc !! f = Some (VString (uid a)).
Proof.
  unfold owns_stored.
  destruct (auth req) as [a|]; simpl;
    [|split; [done|by intros (? & ? & ? & ?)]].
  destruct resource as [doc|]; simpl;
    [|split; [done|by intros (? & ? & _ & ? & _)]].
  rewrite holds_field_eq_string. split; [eauto|].
  by intros (? & ? & [= <-] & [= <-] & ?).
Qed.


Ltac unfold_policy :=
  unfold A.allows, A.teacherSub, A.appSettings, A.payments, A.announcements,
    A.assignments, A.behaviorIncidents, A.ownedByTeacher,
    A.assignmentSubmissions, A.attendanceEntries, A.timetableEntries,
    A.studentPreferences, A.academicResults,
    B.allows, B.teachers_rule, B.payments, B.publicRead, B.attendanceEntries,
    B.assignments, B.behaviorIncidents, B.timetableEntries, B.portalRead,
    B.teacherWrite, B.isTeacher, B.isOwner, B.isFieldOwner,
    B.isRequestFieldOwner,
    RulesetA.students, RulesetA.teachers_rule, RulesetB.students,
    RulesetB.isAdmin in *.

(** X1. What an unauthenticated caller gets under rule set A: every
    operation on [studentPreferences]; reads, and only reads, of
    [students], [appSettings], [announcements], [timetableEntries] and
    [academicResults]; nothing anywhere else. *)
Theorem unauthenticated_access_A db resource req p :
  auth req = None →
  A.allows db resource req p
  = match p with
    | StudentPreferences _ => true
    | Students _ | AppSettings _ | Announcements _ | TimetableEntries _
    | AcademicResults _ => negb (is_write (method req))
    | _ => false
    end.
Proof.
  intros Hnone. unfold_policy.
  unfold RulesetA.isAdmin, RulesetA.isTeacher, RulesetA.isOwner,
    RulesetA.teaches_grade, owns_written, owns_stored, authenticated.
  rewrite Hnone. by destruct p, (method req).
Qed.

(** X2. On [students], [teachers], [payments], [announcements] and
    [appSettings], rule set B grants every request that rule set A
    grants. *)
Theorem ruleset_B_grants_what_A_grants
    db (studentDocs : gmap string (gmap string value)) resource req
    (id : string) :
  let grantedA := A.allows db resource req in
  let grantedB := B.allows db studentDocs resource req in
  (grantedA (Students id) = true → grantedB (Students id) = true)
  ∧ (grantedA (Teachers id) = true → grantedB (Teachers id) = true)
  ∧ (grantedA (Payments id) = true → grantedB (Payments id) = true)
  ∧ (grantedA (Announcements id) = true → grantedB (Announcements id) = true)
  ∧ (grantedA (AppSettings id) = true → grantedB (AppSettings id) = true).
Proof.
  cbv zeta.
  assert (HB : holds (RulesetA.isAdmin req) = true →
               holds (RulesetB.isAdmin req) = true).
  { intros H%isAdmin_authenticated. unfold RulesetB.isAdmin. by rewrite H. }
  unfold_policy. repeat split.
  - destruct (method req); try done; rewrite ?holds_rule_and; tauto.
  - destruct (method req); try done; rewrite ?orb_true_iff, ?holds_rule_and.
    { tauto. }
    intros [H|H].
    + apply HB in H. unfold RulesetB.isAdmin in *.
      destruct (RulesetA.isOwner req id) as [[]|] eqn:E; simpl; try done.
      unfold RulesetA.isOwner, authenticated in *.
      by destruct (auth req).
    + by destruct (RulesetA.isOwner req id) as [[]|].
  - intros H. apply HB in H. unfold RulesetB.isAdmin in *.
    destruct (method req); try done.
    all: by destruct (authenticated req).
  - destruct (method req); try done; tauto.
  - destruct (method req); try done; rewrite ?orb_true_iff; try tauto.
Qed.

(** X3. Under rule set A, administration is reserved to admins: every
    granted operation on [payments], every granted write on [students],
    [appSettings] or [announcements], and every granted create or delete
    on [teachers] comes from a caller for whom [isAdmin()] holds. *)
Theorem admin_reserved_operations_A db resource req (id : string) :
  let granted := A.allows db resource req in
  (granted (Payments id) = true → holds (RulesetA.isAdmin req) = true)
  ∧ (is_write (method req) = true →
     granted (Students id) = true ∨ granted (AppSettings id) = true
     ∨ granted (Announcements id) = true →
     holds (RulesetA.isAdmin req) = true)
  ∧ (method req = Create ∨ method req = Delete →
     granted (Teachers id) = true →
     holds (RulesetA.isAdmin req) = true).
Proof.
  cbv zeta. unfold_policy. repeat split.
  - done.
  - destruct (method req); try done; rewrite ?holds_rule_and; tauto.
  - intros [-> | ->]; rewrite ?holds_rule_and; tauto.
Qed.

(** X4. Under rule set A, a teacher-owned record is created in its
    author's name: a granted create on [assignments] or
    [behaviorIncidents] comes from a registered teacher and carries that
    teacher's uid in [teacherId] (admins get no exception); a granted
    create on [timetableEntries], [academicResults] ([teacherId]) or
    [attendanceEntries] ([markedByTeacherId]) does so unless the caller is
    an admin. *)
Theorem created_records_carry_author_A db resource req (id : string) :
  method req = Create →
  let granted := A.allows db resource req in
  let authored f :=
    ∃ a, auth req = Some a ∧ is_Some (teachers db !! uid a)
         ∧ resource_data req !! f = Some (VString (uid a)) in
  (granted (Assignments id) = true ∨ granted (BehaviorIncidents id) = true →
   authored "teacherId")
  ∧ (granted (TimetableEntries id) = true
     ∨ granted (AcademicResults id) = true →
     holds (RulesetA.isAdmin req) = true ∨ authored "teacherId")
  ∧ (granted (AttendanceEntries id) = true →
     holds (RulesetA.isAdmin req) = true ∨ authored "markedByTeacherId").
Proof.
  intros Hm. cbv zeta. unfold_policy. rewrite Hm.
  assert (Hauthored : ∀ f,
    holds (rule_and (RulesetA.isTeacher db req) (owns_written req f)) = true →
    ∃ a, auth req = Some a ∧ is_Some (teachers db !! uid a)
         ∧ resource_data req !! f = Some (VString (uid a))).
  { intros f. rewrite holds_rule_and, isTeacher_holds, owns_written_holds.
    intros [(a & Ha & Ht) (a' & Ha' & _ & Hf)].
    assert (a' = a) as -> by congruence. eauto. }
  repeat split.
  - intros [H|H]; by apply Hauthored.
  - rewrite !orb_true_iff. intros [[H|H]|[H|H]]; auto.
  - rewrite orb_true_iff. intros [H|H]; auto.
Qed.

(** X5. Under rule set A, an authenticated caller who is not an admin
    reads an assignment, a behaviour incident, an attendance entry, a
    timetable entry or an academic result only as a registered teacher
    whose uid the stored document carries in its owner field. *)
Theorem teacher_reads_own_records_A db resource req (id : string) :
  is_write (method req) = false →
  is_Some (auth req) →
  holds (RulesetA.isAdmin req) = false →
  let granted := A.allows db resource req in
  let owned f :=
    ∃ a doc, auth req = Some a ∧ is_Some (teachers db !! uid a)
             ∧ resource = Some doc ∧ doc !! f = Some (VString (uid a)) in
  (granted (Assignments id) = true ∨ granted (BehaviorIncidents id) = true
   ∨ granted (TimetableEntries id) = true
   ∨ granted (AcademicResults id) = true → owned "teacherId")
  ∧ (granted (AttendanceEntries id) = true → owned "markedByTeacherId").
Proof.
  intros Hread [a Ha] Hadmin. cbv zeta. unfold_policy.
  assert (Hauth : authenticated req = true)
    by (unfold authenticated; by rewrite Ha).
  rewrite Hadmin, Hauth.
  assert (Howned : ∀ f,
    holds (rule_and (RulesetA.isTeacher db req) (owns_stored resource req f))
      = true →
    ∃ a doc, auth req = Some a ∧ is_Some (teachers db !! uid a)
             ∧ resource = Some doc ∧ doc !! f = Some (VString (uid a))).
  { intros f. rewrite holds_rule_and, isTeacher_holds, owns_stored_holds.
    intros [(b & Hb & Ht) (b' & doc & Hb' & Hr & Hf)].
    assert (b' = b) as -> by congruence. eauto 10. }
  destruct (method req); try done; simpl; rewrite ?orb_false_r.
  all: split; [intros [H|[H|[H|H]]]|intros H]; by apply Howned.
Qed.

(** X6. The [teachers] block of rule set A: a create is granted exactly to
    an admin who submits a [uid] field equal to the document key; an
    authenticated caller who is not an admin is granted exactly get, list
    and update of the document keyed by their own uid. *)
Theorem teacher_profile_access_A req (t : string) :
  (method req = Create →
   RulesetA.teachers_rule t req = true ↔
   holds (RulesetA.isAdmin req) = true
   ∧ resource_data req !! "uid" = Some (VString t))
  ∧ (∀ a, auth req = Some a →
          holds (RulesetA.isAdmin req) = false →
          RulesetA.teachers_rule t req = true ↔
          uid a = t ∧ method req ≠ Create ∧ method req ≠ Delete).
Proof.
  unfold RulesetA.teachers_rule. split.
  - intros ->. by rewrite holds_rule_and, holds_field_eq_string.
  - intros a Ha Hadmin.
    assert (Hown : holds (RulesetA.isOwner req t) = true ↔ uid a = t).
    { rewrite isOwner_holds. split; [|by eauto].
      intros (a' & Ha' & Hu). congruence. }
    destruct (method req); rewrite ?holds_rule_and, ?Hadmin; simpl.
    1,2,4: rewrite Hown; intuition congruence.
    all: intuition congruence.
Qed.

(** X7. Under rule set B, an attendance entry is readable by every
    authenticated caller, whatever classes they teach, and by an
    unauthenticated caller only when the stored [studentId] is the
    placeholder text; the clause on the teacher's assigned classes never
    decides. *)
Theorem attendance_read_B
    db (studentDocs : gmap string (gmap string value)) resource req :
  is_write (method req) = false →
  B.attendanceEntries db studentDocs resource req = true ↔
  is_Some (auth req)
  ∨ ∃ doc, resource = Some doc
           ∧ doc !! "studentId"
             = Some (VString "STUDENT_PORTAL_ID_PLACEHOLDER_FOR_STUDENT_READ").
Proof.
  intros Hread. unfold_policy.
  unfold RulesetA.isTeacher, authenticated.
  destruct (method req); try done.
  all: destruct (auth req) as [a|]; simpl.
  all: try (split; [eauto|done]).
  all: destruct resource as [doc|]; simpl.
  all: rewrite ?holds_field_eq_string.
  all: split; try (intros H; right; eauto); try (intros [[? ?]|(? & ? & ?)]);
    try done; try congruence.
Qed.

(** X8. What an unauthenticated caller gets under rule set B: no write at
    all and no read of [payments] or [timetableEntries]; reads of
    [students], [teachers], [announcements], [feeStructure] and
    [appSettings]; and reads of [attendanceEntries], [assignments] and
    [behaviorIncidents] only for stored documents that carry the
    placeholder text. *)
Theorem unauthenticated_access_B
    db (studentDocs : gmap string (gmap string value)) resource req p :
  auth req = None →
  let carries f placeholder :=
    holds (doc ← resource; field_eq doc f (VString placeholder)) in
  B.allows db studentDocs resource req p
  = negb (is_write (method req))
    && match p with
       | Students _ | Teachers _ | Announcements _ | FeeStructure _
       | AppSettings _ => true
       | Assignments _ => carries "classId" "STUDENT_PORTAL_CLASS_ID_PLACEHOLDER"
       | BehaviorIncidents _ | AttendanceEntries _ =>
           carries "studentId" "STUDENT_PORTAL_ID_PLACEHOLDER_FOR_STUDENT_READ"
       | _ => false
       end.
Proof.
  intros Hnone. cbv zeta. unfold_policy.
  unfold RulesetA.isTeacher, RulesetA.isOwner, owns_written, owns_stored,
    written, authenticated.
  rewrite Hnone.
  destruct p, (method req); simpl; try done.
  all: by destruct (resource ≫= _) as [[]|].
Qed.

(** X9. Under rule set B, being authenticated is not enough to write a
    teacher-owned record: a granted write on [assignments],
    [behaviorIncidents] or [timetableEntries] comes from a registered
    teacher whose uid is the [teacherId] of the submitted document (create)
    or of the stored one (update, delete). *)
Theorem teacher_writes_own_records_B
    db (studentDocs : gmap string (gmap string value)) resource req
    (id : string) :
  is_write (method req) = true →
  let granted := B.allows db studentDocs resource req in
  granted (Assignments id) = true ∨ granted (BehaviorIncidents id) = true
  ∨ granted (TimetableEntries id) = true →
  ∃ a, auth req = Some a ∧ is_Some (teachers db !! uid a)
       ∧ match method req with
         | Create => resource_data req !! "teacherId" = Some (VString (uid a))
         | _ => ∃ doc, resource = Some doc
                       ∧ doc !! "teacherId" = Some (VString (uid a))
         end.
Proof.
  intros Hw. cbv zeta. unfold_policy.
  assert (Hgranted :
    B.teacherWrite db resource req = true →
    ∃ a, auth req = Some a ∧ is_Some (teachers db !! uid a)
         ∧ match method req with
           | Create =>
               resource_data req !! "teacherId" = Some (VString (uid a))
           | _ => ∃ doc, resource = Some doc
                         ∧ doc !! "teacherId" = Some (VString (uid a))
           end).
  { unfold_policy.
    destruct (method req) eqn:Hm; try done.
    all: rewrite !holds_rule_and, isTeacher_holds.
    all: rewrite ?owns_written_holds, ?owns_stored_holds.
    - intros [(a & Ha & Ht) [_ (a' & Ha' & _ & Hf)]].
      assert (a' = a) as -> by congruence. eauto.
    - intros [(a & Ha & Ht) [_ (a' & doc & Ha' & Hr & Hf)]].
      assert (a' = a) as -> by congruence. eauto 10.
    - intros [(a & Ha & Ht) [_ (a' & doc & Ha' & Hr & Hf)]].
      assert (a' = a) as -> by congruence. eauto 10. }
  unfold B.teacherWrite in Hgranted.
  destruct (method req); try done; intros [H|[H|H]]; by apply Hgranted.
Qed.

End PolicyFacts.

(** ** The login forms: every outcome *)

Section LoginOutcomes.

Import Ui Supabase LoginForm.

(** X10. Every outcome of the admin form. When the sign-in succeeds with a
    user and a session, the handler writes the admin flag (in the browser),
    pushes [/admin/dashboard], does not sign out and reports nothing; on
    every other path (auth error, missing user or session, rejected call)
    it leaves local storage as it was, pushes no route, signs out and sets
    a login error. *)
Theorem admin_login_outcomes
    (K : Constants) (has_window : bool) (sb : Supabase.Auth) (v : Values)
    (r : State) (st : gmap string string) :
  let w := exec (AdminLogin.onSubmit K has_window sb v) (mkWorld r st []) in
  match StudentLogin.auth_succeeds sb v with
  | Some u =>
      localStorage w
        = (if has_window then <[ADMIN_LOGGED_IN_KEY K := "true"]> st else st)
      ∧ RouterPush "/admin/dashboard" ∈ calls w
      ∧ (SignOut ∉ calls w)
      ∧ loginError (react w) = None
  | None =>
      localStorage w = st
      ∧ (∀ href, RouterPush href ∉ calls w)
      ∧ SignOut ∈ calls w
      ∧ Js.truthy (loginError (react w)) = true
  end.
Proof.
  unfold StudentLogin.auth_succeeds, AdminLogin.onSubmit,
    AdminLogin.on_auth_error, AdminLogin.on_exception.
  run.
  destruct (signOut_rejects sb) eqn:Hrej;
  (destruct (signInWithPassword sb _ _) as [resp|e]; run;
   [destruct (auth_error resp) as [ae|]; run;
    [|destruct (user resp) as [u|]; run;
      [destruct (session resp) as [se|]; run|]]|]).
  all: paths.
  all: repeat split; try done; try called; try not_called.
  all: intros href; not_called.
Qed.

(** X11. A successful student login: the profile is looked up under the id
    of the signed-in user, the welcome toast is shown and
    [/student/dashboard] is pushed; nothing else is called (no sign-out)
    and no login error is set. *)
Theorem student_login_success
    (sb : Supabase.Auth) (v : Values) (r : State) (st : gmap string string)
    (u : User) :
  StudentLogin.auth_succeeds sb v = Some u →
  StudentLogin.profile_linked sb u = true →
  let w := exec (StudentLogin.onSubmit sb v) (mkWorld r st []) in
  (∃ description,
     calls w = [SignInWithPassword (Js.toLowerCase (email v)) (password v);
                SelectSingle "students" "auth_user_id" (user_id u);
                Toast "Login Successful" description;
                RouterPush "/student/dashboard"])
  ∧ loginError (react w) = None.
Proof.
  unfold StudentLogin.auth_succeeds, StudentLogin.profile_linked,
    StudentLogin.onSubmit.
  run.
  destruct (signInWithPassword sb _ _) as [resp|e]; [|done].
  destruct (auth_error resp) as [ae|]; [done|].
  destruct (user resp) as [u'|]; [|done].
  destruct (session resp) as [se|]; [|done].
  intros [= ->]. run.
  destruct (student_by_auth_user_id sb (user_id u)) as [pr|pe]; [|done].
  run. destruct (StudentLogin.is_lookup_failure (error pr)); [done|].
  destruct (data pr); [|done]. intros _. run. eauto.
Qed.

(** X12. Both forms treat the e-mail address without regard to letter
    case: two submissions with the same password whose addresses differ
    only in the case of ASCII letters run identically, from every state
    of the form, the storage and the calls made so far. *)
Theorem login_ignores_email_case
    (K : Constants) (has_window : bool) (sb : Supabase.Auth)
    (v1 v2 : Values) (w : World State) :
  Js.toLowerCase (email v1) = Js.toLowerCase (email v2) →
  password v1 = password v2 →
  AdminLogin.onSubmit K has_window sb v1 w
    = AdminLogin.onSubmit K has_window sb v2 w
  ∧ StudentLogin.onSubmit sb v1 w = StudentLogin.onSubmit sb v2 w.
Proof.
  intros He Hp. unfold AdminLogin.onSubmit, StudentLogin.onSubmit.
  cbv zeta. by rewrite He, Hp.
Qed.

End LoginOutcomes.

(** ** The login forms: the error shown *)

Section LoginErrors.

Import Ui Supabase LoginForm.

Variables (K : Constants) (has_window : bool) (sb : Supabase.Auth).
Variables (v : Values) (r : State) (st : gmap string string).

Let admin : World State :=
  exec (AdminLogin.onSubmit K has_window sb v) (mkWorld r st []).
Let student : World State :=
  exec (StudentLogin.onSubmit sb v) (mkWorld r st []).
Let signIn : Call :=
  SignInWithPassword (Js.toLowerCase (email v)) (password v).

(** X25. An auth error with a message. When the sign-in answers with an
    error that carries a message, each form signs out and shows a text
    chosen by the message in lower case: the invalid-credentials text if
    it contains "invalid login credentials", else the form's own
    not-confirmed text if it contains "email not confirmed", else "An
    unexpected error occurred: " followed by the message as received. The
    admin form calls nothing else; the student form logs a warning for the
    two known messages and an error otherwise, and does not look up the
    student. *)
Theorem auth_error_texts (resp : AuthResponse) (e : Js.Error) (m : string) :
  signInWithPassword sb (Js.toLowerCase (email v)) (password v)
    = Returned resp →
  auth_error resp = Some e →
  Js.message e = Some m →
  let lower := Js.toLowerCase m in
  loginError (react admin)
  = Some (if Js.includes lower "invalid login credentials"
          then "Invalid email or password. Please check your credentials and try again."
          else if Js.includes lower "email not confirmed"
          then "This admin account's email has not been confirmed. Please check your inbox for a confirmation link."
          else "An unexpected error occurred: " +:+ m)
  ∧ loginError (react student)
    = Some (if Js.includes lower "invalid login credentials"
            then "Invalid email or password. Please check your credentials and try again."
            else if Js.includes lower "email not confirmed"
            then "Your email has not been confirmed. Please check your inbox for a confirmation link."
            else "An unexpected error occurred: " +:+ m)
  ∧ calls admin
    = signIn :: SignOut :: (if signOut_rejects sb then [Console Err] else [])
  ∧ calls student
    = signIn :: SignOut
      :: (if signOut_rejects sb then [Console Err] else [])
      ++ [Console (if Js.includes lower "invalid login credentials"
                      || Js.includes lower "email not confirmed"
                   then Warn else Err)].
Proof.
  intros Hs He Hm. subst admin student signIn.
  unfold AdminLogin.onSubmit, AdminLogin.on_auth_error,
    StudentLogin.onSubmit, StudentLogin.on_auth_error.
  run. rewrite Hs. run. rewrite He. run. rewrite Hm.
  destruct (signOut_rejects sb); run.
  all: destruct (Js.includes (Js.toLowerCase m) "invalid login credentials");
    run; [done|].
  all: by destruct (Js.includes (Js.toLowerCase m) "email not confirmed").
Qed.

(** X26. A rejected sign-in call. When the call itself rejects, each form
    signs out and shows the "could not connect" text if the error's
    message, in lower case, contains "failed to fetch"; otherwise the admin
    form shows a fixed text and the student form a text that quotes the
    message ("Unknown error" when there is none). Only the student form
    logs the error. *)
Theorem sign_in_rejected_texts (e : Js.Error) :
  signInWithPassword sb (Js.toLowerCase (email v)) (password v) = Thrown e →
  let unreachable :=
    Js.truthy (Js.message e)
    && Js.includes (Js.toLowerCase (default "" (Js.message e)))
         "failed to fetch" in
  let connect :=
    "Could not connect to the server. Please check your internet connection and ensure the Supabase URL in your .env file is correct." in
  loginError (react admin)
  = Some (if unreachable then connect
          else "An unexpected error occurred. Please try again.")
  ∧ loginError (react student)
    = Some (if unreachable then connect
            else "An unexpected error occurred: "
                 +:+ Js.or_else (Js.message e) "Unknown error" +:+ ".")
  ∧ calls admin
    = signIn :: SignOut :: (if signOut_rejects sb then [Console Err] else [])
  ∧ calls student
    = signIn :: SignOut
      :: (if signOut_rejects sb then [Console Err] else []) ++ [Console Err].
Proof.
  intros Hs. subst admin student signIn.
  unfold AdminLogin.onSubmit, AdminLogin.on_exception,
    StudentLogin.onSubmit, StudentLogin.on_exception.
  run. rewrite Hs. run.
  destruct (signOut_rejects sb); run.
  all: by destruct (Js.truthy (Js.message e) && _).
Qed.

(** X27. An auth error without a message. Reading the message of such an
    error throws inside the [try] block after the first sign-out, so the
    [catch] block signs out a second time and the form shows the text of
    an unexpected error. *)
Theorem auth_error_without_message (resp : AuthResponse) (e : Js.Error) :
  signInWithPassword sb (Js.toLowerCase (email v)) (password v)
    = Returned resp →
  auth_error resp = Some e →
  Js.message e = None →
  signOut_rejects sb = false →
  calls admin = [signIn; SignOut; SignOut]
  ∧ loginError (react admin)
    = Some "An unexpected error occurred. Please try again."
  ∧ calls student = [signIn; SignOut; SignOut; Console Err]
  ∧ Js.truthy (loginError (react student)) = true.
Proof.
  intros Hs He Hm Hrej. subst admin student signIn.
  unfold AdminLogin.onSubmit, AdminLogin.on_auth_error,
    AdminLogin.on_exception, StudentLogin.onSubmit,
    StudentLogin.on_auth_error, StudentLogin.on_exception.
  run. rewrite Hs. run. rewrite He. run. rewrite Hm, Hrej. run. done.
Qed.

End LoginErrors.

(** ** The teacher dashboard: what the load never does *)

Section DashboardInvariants.

Import Ui Js Inv TeacherDashboard.

Ltac unfold_handlers :=
  unfold onMount, loadDashboardData, fetchAll, fetchProfileAndStudents,
    fetchAnnouncements, onError, whenMounted, appendError, await'.

Lemma onMount_keeps_storage K env (st : gmap string string) :
  keeps (λ w, localStorage w = st) (onMount K env).
Proof. unfold_handlers. keeps_steps; by intros w. Qed.

(** The part of the load that runs when a teacher uid is stored. *)
Lemma fetches_push_nothing client uid :
  keeps no_push
    ((finally (try_catch (fetchAll client uid) onError)
        (whenMounted (setState (with_isLoadingAnnouncements false)))) ;;
     whenMounted (setState (with_isLoading false))).
Proof.
  unfold_handlers. keeps_steps; intros w Hw; try done.
  all: by apply no_push_call.
Qed.

(** X13. The teacher dashboard never writes local storage, and it pushes a
    route only to send a caller without a stored teacher uid (absent, or
    the empty string) to the teacher login: with a stored uid it pushes
    nothing, whatever the backend answers. *)
Theorem dashboard_redirects_only_without_uid
    (K : Constants) (env : Env) (client : Client)
    (st : gmap string string) :
  supabase env = Some client →
  let loaded := exec (onMount K env) (mount initial st) in
  let stored :=
    if has_window env then st !! TEACHER_LOGGED_IN_UID_KEY K else None in
  localStorage loaded = st
  ∧ (truthy stored = false → calls loaded = [RouterPush "/auth/teacher/login"])
  ∧ (truthy stored = true → no_push loaded).
Proof.
  intros Hclient loaded stored. split; [|split].
  - by apply (onMount_keeps_storage K env st).
  - subst loaded stored. intros Hstored.
    unfold onMount, loadDashboardData, whenMounted. run. rewrite Hclient. run.
    destruct (has_window env); run.
    + destruct (st !! TEACHER_LOGGED_IN_UID_KEY K) as [[|c u]|]; done.
    + done.
  - subst loaded stored. intros Hstored.
    destruct (has_window env) eqn:Hw; [|done].
    destruct (st !! TEACHER_LOGGED_IN_UID_KEY K) as [uid|] eqn:Hu; [|done].
    assert (uid ≠ "") as Hne by (by destruct uid).
    rewrite (load_start K env client st uid Hclient Hw Hu Hne).
    apply (fetches_push_nothing client uid). by intros href ?%elem_of_nil.
Qed.

Lemma whenMounted_unmounted (P : World State → Prop) m :
  (∀ w, P w → isMounted (react w) = false) →
  keeps P (whenMounted m).
Proof.
  intros H w Hw. unfold whenMounted. run. by rewrite (H w Hw).
Qed.

(** Once the page is unmounted (and its announcements error is null), the
    rest of the load leaves the state as it is. *)
Lemma unmounted_state_kept client (s : State) :
  isMounted s = false → announcementsError s = None →
  let P := λ w : World State, react w = s in
  keeps P (fetchAnnouncements client)
  ∧ (∀ e, keeps P (onError e))
  ∧ keeps P (whenMounted (setState (with_isLoadingAnnouncements false)))
  ∧ keeps P (whenMounted (setState (with_isLoading false))).
Proof.
  intros Hm Ha P.
  assert (HP : ∀ w, P w → isMounted (react w) = false)
    by (by intros w ->).
  assert (Hclean : ∀ w, P w →
    P (mkWorld (with_isMounted false (react w)) (localStorage w) (calls w))).
  { intros w ->. unfold P. simpl. destruct s; simpl in *. by subst. }
  assert (Hann : ∀ w, P w →
    P (mkWorld (with_announcementsError None (react w)) (localStorage w)
         (calls w))).
  { intros w ->. unfold P. simpl. destruct s; simpl in *. by subst. }
  assert (Hcall : ∀ c w, P w →
    P (mkWorld (react w) (localStorage w) (calls w ++ [c])))
    by (by intros c w ->).
  repeat split; [|intros e|..].
  all: unfold fetchAnnouncements, onError, await'.
  all: repeat first
    [ by apply whenMounted_unmounted
    | apply keeps_await_page; [exact Hclean | apply Hcall]
    | apply keeps_setState; exact Hann
    | apply keeps_call; apply Hcall
    | apply keeps_bind; [|intros ?]
    | apply keeps_if
    | apply keeps_throw
    | match goal with
      | |- keeps _ (match ?x with _ => _ end) => destruct x
      end ].
Qed.

(** X14. Unmounting cancels nothing but silences the page. If the page is
    unmounted while the profile query is pending, no state cell is changed
    afterwards; if it is unmounted while the students query is pending,
    only the profile stored before remains; and in both cases, when these
    queries do not fail, the announcements query is still issued. *)
Theorem dashboard_unmount
    (K : Constants) (env : Env) (client : Client)
    (st : gmap string string) (uid : string) :
  supabase env = Some client →
  has_window env = true →
  st !! TEACHER_LOGGED_IN_UID_KEY K = Some uid →
  uid ≠ "" →
  let loaded := exec (onMount K env) (mount initial st) in
  (unmounts (teacher_by_auth_user_id client uid) = true →
   react loaded = with_isMounted false initial)
  ∧ (∀ p c cs,
       answered (teacher_by_auth_user_id client uid) (Some p) →
       assigned_classes p = Some (c :: cs) →
       unmounts (students_in_grade_levels client (c :: cs)) = true →
       react loaded
       = with_isMounted false (with_teacherProfile (Some p) initial))
  ∧ (∀ p,
       outcome (teacher_by_auth_user_id client uid)
         = Returned (Supabase.mkResponse (Some p) None) →
       (∀ c cs, assigned_classes p = Some (c :: cs) →
                failure (students_in_grade_levels client (c :: cs)) = None) →
       SelectAnnouncements ∈ calls loaded).
Proof.
  intros Hclient Hw Hu Hne loaded. subst loaded.
  rewrite (load_start K env client st uid Hclient Hw Hu Hne).
  split; [|split].
  - intros Hum.
    destruct (unmounted_state_kept client (with_isMounted false initial)
                eq_refl eq_refl) as (Hann & Herr & Hfin & Hlast).
    apply (leads_exec _ (λ w, react w = with_isMounted false initial)).
    apply leads_bind; [|by intros _].
    apply leads_finally; [|done].
    apply leads_try_catch; [|done].
    unfold fetchAll. apply leads_bind; [|by intros _].
    unfold fetchProfileAndStudents. apply leads_bind.
    { intros w ->. unfold await'. run. by rewrite Hum. }
    intros profile. unfold await'.
    repeat first
      [ by apply whenMounted_unmounted; intros ? ->
      | apply keeps_await_page; by intros ? ->
      | apply keeps_bind; [|intros ?]
      | apply keeps_throw
      | match goal with
        | |- keeps _ (match ?x with _ => _ end) => destruct x
        end ].
  - intros p c cs [Hum Hp] Hc Hums.
    set (s := with_isMounted false (with_teacherProfile (Some p) initial)).
    destruct (unmounted_state_kept client s eq_refl eq_refl)
      as (Hann & Herr & Hfin & Hlast).
    apply (leads_exec _ (λ w, react w = s)).
    apply leads_bind; [|by intros _].
    apply leads_finally; [|done].
    apply leads_try_catch; [|done].
    unfold fetchAll. apply leads_bind; [|by intros _].
    unfold fetchProfileAndStudents, await', await_page.
    intros w ->. run. rewrite Hum, Hp. run. rewrite Hc. run. rewrite Hums.
    run. paths; done.
  - intros p Hp Hs.
    unfold fetchAll, fetchProfileAndStudents, fetchAnnouncements, onError,
      whenMounted, appendError, await', failure in *.
    destruct (teacher_by_auth_user_id client uid) as [[] o]; simpl in Hp;
      subst o; run.
    all: destruct (assigned_classes p) as [[|c cs]|] eqn:Hc; run.
    all: try (specialize (Hs c cs eq_refl);
              destruct (students_in_grade_levels client (c :: cs))
                as [[] [rs|es]]; simpl in Hs; try done; run;
              rewrite Hs; run).
    all: destruct (school_announcements client) as [[] [ra|ea]]; run.
    all: paths; called.
Qed.

End DashboardInvariants.

(** ** The teacher dashboard: further outcomes of the load *)

Section DashboardOutcomes.

Import Ui Js Inv TeacherDashboard.

Ltac unfold_fetches :=
  unfold answered, failure, Mounted.dashboard, fetchAll,
    fetchProfileAndStudents, fetchAnnouncements, onError, whenMounted,
    appendError, await' in *.


Section WithUid.

Variables (K : Constants) (env : Env) (client : Client).
Variables (st : gmap string string) (uid : string).
Hypothesis Hclient : supabase env = Some client.
Hypothesis Hwindow : has_window env = true.
Hypothesis Huid : st !! TEACHER_LOGGED_IN_UID_KEY K = Some uid.
Hypothesis Hne : uid ≠ "".

Let loaded : World State := exec (onMount K env) (mount initial st).

Ltac start :=
  unfold loaded;
  rewrite (load_start K env client st uid Hclient Hwindow Huid Hne).

(** X15. A teacher without a profile row. When the profile query answers
    with no row and no error, the load sets the "profile could not be
    found" error, pushes no route and still fetches the announcements: if
    they are answered they are stored, and the page shows the profile-issue
    card with the hint and without the login link; if they fail with a
    text that does not name the announcements, the second message is
    appended to the first. *)
Theorem dashboard_profile_missing :
  answered (teacher_by_auth_user_id client uid) None →
  (∀ da, answered (school_announcements client) da →
     react loaded
     = mkState None obj_empty (default [] da) false false None
         (Some Mounted.profile_not_found) true
     ∧ calls loaded
       = [SelectSingle "teachers" "auth_user_id" uid; SelectAnnouncements]
     ∧ render (react loaded) = ProfileIssue Mounted.profile_not_found false true)
  ∧ (∀ e, unmounts (school_announcements client) = false →
          failure (school_announcements client) = Some e →
          let msg := or_else (Js.message e) "An unknown error occurred" in
          includes msg "announcements" = false →
          error (react loaded)
          = Some (Mounted.profile_not_found +:+ " "
                  +:+ (if includes msg "profile" || includes msg "students"
                       then "Failed to load dashboard data: " +:+ msg
                       else "An unexpected error occurred."))).
Proof.
  intros Hp. start. unfold_fetches. destruct Hp as [Hum Hp].
  split.
  - intros da [Hua Hoa]. run. rewrite Hum, Hp. run. by rewrite Hua, Hoa.
  - intros e Hua Hfa Hmsg. run. rewrite Hum, Hp. run.
    rewrite Hua. run.
    destruct (outcome (school_announcements client)) as [ra|ea]; run;
      [rewrite Hfa | injection Hfa as ->]; run; rewrite Hmsg; run.
    all: by destruct (includes _ "profile" || includes _ "students").
Qed.


End WithUid.

(** X17. The spinner ends. With a backend client at hand and the page
    mounted throughout, every load ends with [isLoading] false, whatever
    the storage holds and the backend answers, so the page leaves the
    loading view; without a client the load does nothing and the page
    stays in the loading view. *)
Theorem dashboard_leaves_loading_view
    (K : Constants) (env : Env) (st : gmap string string) :
  let loaded := exec (onMount K env) (mount initial st) in
  (∀ client, supabase env = Some client → Mounted.dashboard client →
     isLoading (react loaded) = false ∧ render (react loaded) ≠ LoadingPage)
  ∧ (supabase env = None →
     loaded = mount initial st ∧ render (react loaded) = LoadingPage).
Proof.
  intros loaded. subst loaded. split.
  - intros client Hclient (Hum1 & Hum2 & Hum3).
    assert (isLoading (react (exec (onMount K env) (mount initial st)))
            = false) as Hdone.
    { unfold onMount, loadDashboardData. unfold_fetches.
      run. rewrite Hclient. run.
      destruct (has_window env); run; [|done].
      destruct (st !! TEACHER_LOGGED_IN_UID_KEY K) as [[|ch uid]|]; run;
        [done| |done].
      rewrite Hum1. run.
      destruct (outcome (teacher_by_auth_user_id client _)) as [rp|ep]; run.
      2: { paths; done. }
      destruct (Supabase.error rp); run.
      { paths; done. }
      destruct (school_announcements client) as [um3 o3]; simpl in Hum3;
        subst um3.
      destruct (Supabase.data rp) as [p|]; run.
      2: { destruct o3; run; paths; done. }
      destruct (assigned_classes p) as [[|c cs]|]; run.
      2: { rewrite (Hum2 (c :: cs)). run.
           destruct (outcome (students_in_grade_levels client (c :: cs)));
             run; paths; try done.
           all: destruct o3; run; paths; done. }
      all: destruct o3; run; paths; done. }
    split; [done|]. unfold render. by rewrite Hdone; repeat case_match.
  - intros Hnone. unfold onMount, loadDashboardData. run. by rewrite Hnone.
Qed.

End DashboardOutcomes.

(** ** The teacher dashboard: the classes card *)

Section RosterView.

Import Js TeacherDashboard.

Implicit Types (classes : list string) (all : list StudentFromSupabase).

(** The own properties of the grouping. *)
Lemma groupByClass_own classes all k v :
  own (groupByClass classes all) !! k = Some v ↔
  k ∈ classes ∧ k ≠ "__proto__" ∧ v = List.filter (inClass k) all.
Proof.
  split.
  - intros Hk.
    assert (k ∈ classes ∧ k ≠ "__proto__") as [Hin Hne].
    { apply (groupByClass_keys classes all), elem_of_obj_keys, elem_of_dom.
      by eexists. }
    repeat split; try done.
    pose proof (groupByClass_get classes all k Hin) as Hget.
    unfold obj_get in Hget. rewrite Hk in Hget. congruence.
  - intros (Hin & Hne & ->).
    assert (k ∈ obj_keys (groupByClass classes all)) as Hkey
      by (by apply groupByClass_keys).
    apply elem_of_obj_keys, elem_of_dom in Hkey as [v Hv].
    pose proof (groupByClass_get classes all k Hin) as Hget.
    unfold obj_get in Hget. rewrite Hv in Hget. congruence.
Qed.

Lemma obj_keys_nil {V} (o : Obj V) :
  (0 <? length (obj_keys o))%nat = true ↔ ∃ k, k ∈ obj_keys o.
Proof.
  rewrite Nat.ltb_lt. destruct (obj_keys o) as [|k l]; simpl.
  - split; [lia|]. by intros [k ?%elem_of_nil].
  - split; [|lia]. intros _. exists k. apply list_elem_of_here.
Qed.

Lemma obj_values_all_empty {V} (o : Obj (list V)) :
  forallb (λ l, (length l =? 0)%nat) (obj_values o) = true ↔
  ∀ k v, own o !! k = Some v → v = [].
Proof.
  rewrite forallb_forall. unfold obj_values. split.
  - intros H k v Hk. specialize (H v).
    rewrite Nat.eqb_eq in H. apply length_zero_iff_nil, H.
    apply list_elem_of_In, list_elem_of_fmap. exists (k, v).
    split; [done|]. by apply elem_of_map_to_list.
  - intros H v Hv. apply list_elem_of_In, list_elem_of_fmap in Hv
      as ([k v'] & -> & Hv). apply elem_of_map_to_list in Hv.
    by rewrite (H k v' Hv).
Qed.

(** X18. The classes card shows what the load grouped. For a teacher
    assigned [classes] whose roster is the grouping of the fetched students
    [all]: there is one section per assigned class, in the assigned order
    (a class assigned twice has two sections), with the table of the
    fetched students of that class in the fetched order, or the "no
    students found" text when there is none; the "not assigned" note is
    shown exactly when no class is assigned; the "no students registered"
    note exactly when some assigned class is not named [__proto__] and no
    fetched student is in such a class; and the "loading student data"
    note exactly when classes are assigned, all of them named [__proto__],
    and the page is not loading. *)
Theorem roster_view (s : State) (p : TeacherProfile) classes all :
  assigned_classes p = Some classes →
  studentsByClass s = groupByClass classes all →
  let view := renderDashboard s p in
  let named k := k ∈ classes ∧ k ≠ "__proto__" in
  class_sections view
    = (λ k, mkSection k match List.filter (inClass k) all with
                        | [] => None
                        | st :: rest => Some (st :: rest)
                        end) <$> classes
  ∧ (not_assigned_note view = true ↔ classes = [])
  ∧ (none_registered_note view = true ↔
     (∃ k, named k) ∧ ∀ k st, named k → st ∈ all → grade_level st ≠ k)
  ∧ (loading_students_note view = true ↔
     classes ≠ [] ∧ (∀ k, k ∈ classes → k = "__proto__")
     ∧ isLoading s = false).
Proof.
  intros Hp Hs view named. subst view. unfold renderDashboard.
  rewrite Hp, Hs. cbv zeta. simpl.
  assert (Hkeys : (0 <? length (obj_keys (groupByClass classes all)))%nat
                  = true ↔ ∃ k, named k).
  { rewrite obj_keys_nil. by setoid_rewrite groupByClass_keys. }
  assert (Hcl : (0 <? length classes)%nat = true ↔ classes ≠ []).
  { rewrite Nat.ltb_lt. destruct classes; simpl; split; try done; lia. }
  split; [|split; [|split]].
  - apply Forall_fmap_ext_1, Forall_forall. intros k Hk.
    unfold renderSection. by rewrite Hs, groupByClass_get.
  - rewrite negb_true_iff. destruct classes; simpl; split; done.
  - rewrite !andb_true_iff, Hkeys, obj_values_all_empty, Hcl. split.
    + intros [[Hex Hall] _]. split; [done|].
      intros k st [Hin Hne] Hst Hg.
      assert (List.filter (inClass k) all = []) as Hnil.
      { apply (Hall k). by apply groupByClass_own. }
      assert (st ∈ List.filter (inClass k) all) as Hmem
        by (by apply elem_of_inClass).
      rewrite Hnil in Hmem. by apply elem_of_nil in Hmem.
    + intros [Hex Hall]. split; [split; [done|]|].
      * intros k v (Hin & Hne & ->)%groupByClass_own.
        destruct (List.filter (inClass k) all) as [|st rest] eqn:Hf; [done|].
        assert (st ∈ List.filter (inClass k) all) as Hmem
          by (rewrite Hf; apply list_elem_of_here).
        apply elem_of_inClass in Hmem as [Hst Hg].
        by destruct (Hall k st (conj Hin Hne) Hst).
      * destruct Hex as (k & Hin & _). intros ->. by apply elem_of_nil in Hin.
  - rewrite !andb_true_iff, Hcl, negb_true_iff, Nat.eqb_eq.
    assert (length (obj_keys (groupByClass classes all)) = 0%nat ↔
            ∀ k, k ∈ classes → k = "__proto__") as ->.
    { split.
      - intros Hlen k Hin. apply dec_stable. intros Hne.
        assert (k ∈ obj_keys (groupByClass classes all)) as Hk
          by (by apply groupByClass_keys).
        apply length_zero_iff_nil in Hlen. rewrite Hlen in Hk.
        by apply elem_of_nil in Hk.
      - intros Hall. apply length_zero_iff_nil.
        destruct (obj_keys (groupByClass classes all)) as [|k l] eqn:Hk;
          [done|].
        assert (k ∈ obj_keys (groupByClass classes all)) as Hin
          by (rewrite Hk; apply list_elem_of_here).
        apply groupByClass_keys in Hin as [Hin Hne]. by destruct Hne, (Hall k). }
    tauto.
Qed.

End RosterView.

(** ** The student attendance page *)

Section AttendanceFacts.

Import Ui Js Inv StudentAttendance.

Ltac unfold_page :=
  unfold onMount, fetchStudentDataAndAttendance, whenMounted, await' in *.

Variables (K : Constants) (env : Env) (st : gmap string string).

Let loaded : World State := exec (onMount K env) (mount initial st).

(** The student id the page reads from local storage. *)
Let stored : option string :=
  if has_window env then st !! CURRENTLY_LOGGED_IN_STUDENT_ID K else None.

Lemma attendance_keeps_storage :
  keeps (λ w, localStorage w = st) (onMount K env).
Proof. unfold_page. keeps_steps; by intros w. Qed.

(** X19. What the attendance page does to the outside, whatever the
    storage holds and the database answers: it never writes local storage;
    besides logging an error it only reads, namely the [students] document
    of the stored id and the [attendanceEntries] whose [studentId] is that
    id; and it queries the attendance entries only when an id is stored
    and the profile document exists. *)
Theorem attendance_page_reads_only :
  let id := default "" stored in
  localStorage loaded = st
  ∧ (∀ c, c ∈ calls loaded →
          c = GetDoc "students" id
          ∨ c = GetDocs "attendanceEntries" "studentId" id
          ∨ c = Console Err)
  ∧ (GetDocs "attendanceEntries" "studentId" id ∈ calls loaded →
     truthy stored = true
     ∧ ∃ d, outcome (getDoc (db env) id) = Returned (Some d)).
Proof.
  intros id. split; [by apply attendance_keeps_storage|].
  subst id loaded stored. unfold_page. run.
  destruct (has_window env); run.
  2: { split; [by intros c ?%elem_of_nil | by intros ?%elem_of_nil]. }
  destruct (st !! CURRENTLY_LOGGED_IN_STUDENT_ID K) as [[|ch id]|]; run.
  1,3: split; [by intros c ?%elem_of_nil | by intros ?%elem_of_nil].
  destruct (getDoc (db env) _) as [um1 [[d|]|e1]]; run.
  1: destruct (getDocs (db env) _) as [um2 [docs|e2]]; run.
  all: destruct um1; run; try (destruct um2; run).
  all: split;
    [ intros c Hc;
      repeat (apply elem_of_cons in Hc as [->|Hc]; [by auto|]);
      by apply elem_of_nil in Hc
    | first [ by eauto | not_called ] ].
Qed.

(** X20. With the page mounted throughout, every load ends with
    [isLoading] false, so the page leaves the loading view; and whenever
    the load ends with a non-empty history, no error is set and the page
    shows the attendance table with one row per entry. *)
Theorem attendance_leaves_loading_view :
  Mounted.attendance (db env) →
  isLoading (react loaded) = false
  ∧ render (react loaded) ≠ LoadingPage
  ∧ (attendanceHistory (react loaded) ≠ [] →
     error (react loaded) = None
     ∧ ∃ student rows, render (react loaded) = AttendancePage student rows
                       ∧ length rows = length (attendanceHistory (react loaded))).
Proof.
  intros [Hum1 Hum2].
  assert (isLoading (react loaded) = false
          ∧ (attendanceHistory (react loaded) ≠ [] →
             error (react loaded) = None
             ∧ is_Some (loggedInStudent (react loaded)))) as [Hdone Hrows].
  { subst loaded. unfold_page. run.
    destruct (has_window env); run; [|done].
    destruct (st !! CURRENTLY_LOGGED_IN_STUDENT_ID K) as [[|ch id]|]; run;
      [done| |done].
    rewrite Hum1. run.
    destruct (outcome (getDoc (db env) _)) as [[d|]|e1]; run; [|done..].
    rewrite Hum2. run.
    destruct (outcome (getDocs (db env) _)) as [docs|e2]; run; [|done].
    split; [done|]. intros _. split; [done|by eexists]. }
  split; [done|]. split.
  - unfold render. rewrite Hdone. by repeat case_match.
  - intros Hne. destruct (Hrows Hne) as [Herr [student Hs]].
    split; [done|]. unfold render. rewrite Hdone, Herr, Hs. simpl.
    eexists _, _. split; [reflexivity|]. by rewrite length_fmap.
Qed.

Section WithStudent.

Variable id : string.
Hypothesis Hwindow : has_window env = true.
Hypothesis Hid : st !! CURRENTLY_LOGGED_IN_STUDENT_ID K = Some id.
Hypothesis Hne : id ≠ "".

Ltac start :=
  subst loaded; unfold Mounted.attendance in *; unfold_page; run;
  rewrite Hwindow; run; rewrite Hid; run;
  destruct id as [|ch id']; [done|]; run.

(** X21. A stored id without a profile document: the load sets the
    "profile not found" error, makes no attendance query, and the page
    shows the error card without the login link. *)
Theorem attendance_profile_missing :
  unmounts (getDoc (db env) id) = false →
  outcome (getDoc (db env) id) = Returned None →
  let text := "Student profile not found. Please contact administration." in
  loaded = mkWorld (mkState None [] false (Some text) true) st
             [GetDoc "students" id]
  ∧ render (react loaded) = ErrorCard text false.
Proof.
  intros Hum Ho. start. by rewrite Hum, Ho.
Qed.

(** X22. The records of the stored student. When both queries are
    answered, the load issues exactly the profile read and the attendance
    query, in this order, sets no error, and the page shows the student
    and one row per returned entry, in the returned order. A [studentId]
    field of the profile document takes the place of the stored id in the
    header, and an [id] field of an entry takes the place of the
    document id as the row key. *)
Theorem attendance_loaded d docs :
  Mounted.attendance (db env) →
  outcome (getDoc (db env) id) = Returned (Some d) →
  outcome (getDocs (db env) id) = Returned docs →
  loaded
  = mkWorld (mkState (Some (studentOf id d)) (entryOf <$> docs) false None true)
      st [GetDoc "students" id; GetDocs "attendanceEntries" "studentId" id]
  ∧ render (react loaded)
    = AttendancePage
        (mkRegisteredStudent (default id (data_studentId d))
           (data_fullName d) (data_gradeLevel d))
        ((λ doc, renderRow (entryOf doc)) <$> docs)
  ∧ row_key <$> ((λ doc, renderRow (entryOf doc)) <$> docs)
    = (λ doc, default doc.1 (data_id doc.2)) <$> docs.
Proof.
  intros [Hum1 Hum2] Ho1 Ho2. start.
  rewrite Hum1, Ho1. run. rewrite Hum2, Ho2. run.
  split; [done|]. split.
  - unfold render. simpl. by rewrite <- list_fmap_compose.
  - rewrite <- list_fmap_compose. by apply list_fmap_ext.
Qed.

(** X23. A query that rejects. Whether the profile read or the attendance
    query rejects while the page is mounted, the error is logged, the load ends with the error
    "Failed to load data: " followed by the error's message, and the page
    shows the error card, with the login link only if the text contains
    "Please log in"; in the second case the student already stored is
    kept but not shown, and the history stays empty. *)
Theorem attendance_failure_shown e :
  let text := "Failed to load data: " +:+ default "undefined" (Js.message e) in
  let card := ErrorCard text (includes text "Please log in") in
  (unmounts (getDoc (db env) id) = false →
   outcome (getDoc (db env) id) = Thrown e →
   loaded = mkWorld (mkState None [] false (Some text) true) st
              [GetDoc "students" id; Console Err]
   ∧ render (react loaded) = card)
  ∧ (∀ d, Mounted.attendance (db env) →
          outcome (getDoc (db env) id) = Returned (Some d) →
          outcome (getDocs (db env) id) = Thrown e →
          loaded
          = mkWorld (mkState (Some (studentOf id d)) [] false (Some text) true)
              st [GetDoc "students" id;
                  GetDocs "attendanceEntries" "studentId" id; Console Err]
          ∧ render (react loaded) = card).
Proof.
  split.
  - intros Hum Ho. start. by rewrite Hum, Ho.
  - intros d [Hum1 Hum2] Ho1 Ho2. start.
    rewrite Hum1, Ho1. run. by rewrite Hum2, Ho2.
Qed.

(** X24. Unmounting cancels nothing but silences the page. If the page is
    unmounted while the profile read is pending, no state cell is changed
    afterwards (the page would stay in the loading view); if it is
    unmounted while the attendance query is pending, only the student
    stored before remains; and whenever the profile document exists, the
    attendance query is still issued. *)
Theorem attendance_unmount :
  (unmounts (getDoc (db env) id) = true →
   react loaded = with_isMounted false initial)
  ∧ (∀ d, unmounts (getDoc (db env) id) = false →
          outcome (getDoc (db env) id) = Returned (Some d) →
          unmounts (getDocs (db env) id) = true →
          react loaded
          = with_isMounted false
              (with_loggedInStudent (Some (studentOf id d)) initial))
  ∧ (∀ d, outcome (getDoc (db env) id) = Returned (Some d) →
          GetDocs "attendanceEntries" "studentId" id ∈ calls loaded).
Proof.
  split; [|split].
  - intros Hum. start. rewrite Hum. run.
    destruct (outcome (getDoc (db env) _)) as [[d|]|e1]; run; try done.
    destruct (getDocs (db env) _) as [[] [docs|e2]]; run; done.
  - intros d Hum1 Ho1 Hum2. start. rewrite Hum1, Ho1. run. rewrite Hum2. run.
    destruct (outcome (getDocs (db env) _)) as [docs|e2]; run; done.
  - intros d Ho1. start.
    destruct (getDoc (db env) _) as [um1 o1]; simpl in Ho1; subst o1.
    destruct um1; run.
    all: destruct (getDocs (db env) _) as [[] [docs|e2]]; run; called.
Qed.

End WithStudent.

End AttendanceFacts.

(** ** Views a load does not reach *)

Section UnreachedViews.

Import Ui Js.

(** X29. After a load with the page mounted, the attendance page never
    shows the "Student Not Found" card: every path that stores no student
    sets an error, and the error card comes first. *)
Theorem attendance_never_student_not_found
    (K : Constants) (env : StudentAttendance.Env) (st : gmap string string) :
  Mounted.attendance (StudentAttendance.db env) →
  let loaded := exec (StudentAttendance.onMount K env)
                  (mount StudentAttendance.initial st) in
  StudentAttendance.render (react loaded) ≠ StudentAttendance.StudentNotFound.
Proof.
  intros [Hum1 Hum2] loaded. subst loaded.
  unfold StudentAttendance.onMount,
    StudentAttendance.fetchStudentDataAndAttendance,
    StudentAttendance.whenMounted, StudentAttendance.await'.
  run.
  destruct (StudentAttendance.has_window env); run; [|done].
  destruct (st !! CURRENTLY_LOGGED_IN_STUDENT_ID K) as [[|ch id]|]; run;
    [done| |done].
  rewrite Hum1. run.
  destruct (outcome (StudentAttendance.getDoc _ _)) as [[d|]|e1]; run;
    [|done..].
  rewrite Hum2. run.
  by destruct (outcome (StudentAttendance.getDocs _ _)) as [docs|e2].
Qed.

Import TeacherDashboard.

Lemma render_profile_not_loaded (s : State) :
  render s = ProfileNotLoaded ↔
  isLoading s = false ∧ teacherProfile s = None ∧ truthy (error s) = false.
Proof.
  unfold render.
  destruct (isLoading s); [split; [done|by intros (? & ? & ?)]|].
  destruct (error s) as [err|].
  - destruct (truthy (Some err)), (teacherProfile s); simpl;
      try destruct (includes err "profile could not be found"); simpl.
    all: split; try done; by intros (? & ? & ?).
  - destruct (teacherProfile s); simpl.
    all: split; try done; by intros (? & ? & ?).
Qed.

(** X28. The "Profile Not Loaded" card. After a load that ran with a
    backend client and the page mounted, the page shows this card exactly
    when a teacher uid is stored and the profile query failed with a
    message that contains "announcements": the failure is then filed under
    the announcements, and neither a profile nor a page-level error is
    set. *)
Theorem dashboard_profile_not_loaded
    (K : Constants) (env : Env) (client : Client) (st : gmap string string) :
  supabase env = Some client →
  Mounted.dashboard client →
  let loaded := exec (onMount K env) (mount initial st) in
  let stored :=
    if has_window env then st !! TEACHER_LOGGED_IN_UID_KEY K else None in
  render (react loaded) = ProfileNotLoaded ↔
  truthy stored = true
  ∧ ∃ e, failure (teacher_by_auth_user_id client (default "" stored)) = Some e
         ∧ includes (or_else (Js.message e) "An unknown error occurred")
             "announcements" = true.
Proof.
  intros Hclient (Hum1 & Hum2 & Hum3) loaded stored. subst loaded stored.
  rewrite render_profile_not_loaded.
  unfold onMount, loadDashboardData, fetchAll, fetchProfileAndStudents,
    fetchAnnouncements, onError, whenMounted, appendError, await', failure.
  run. rewrite Hclient. run.
  destruct (has_window env); run.
  2: { split; [by intros (? & ? & ?)|by intros [? _]]. }
  destruct (st !! TEACHER_LOGGED_IN_UID_KEY K) as [[|ch uid]|]; run.
  1,3: split; [by intros (? & ? & ?)|by intros [? _]].
  rewrite Hum1. run.
  destruct (outcome (teacher_by_auth_user_id client _)) as [rp|ep]; run.
  2: { destruct (includes _ "announcements") eqn:Hann; run.
       - split; [eauto|done].
       - destruct (includes _ "profile" || includes _ "students"); run.
         all: split; [by intros (? & ? & ?)|].
         all: intros [_ (e & [= <-] & He)]; congruence. }
  destruct (Supabase.error rp) as [e|]; run.
  { destruct (includes _ "announcements") eqn:Hann; run.
    - split; [eauto|done].
    - destruct (includes _ "profile" || includes _ "students"); run.
      all: split; [by intros (? & ? & ?)|].
      all: intros [_ (e' & [= <-] & He)]; congruence. }
  destruct (school_announcements client) as [um3 o3]; simpl in Hum3; subst um3.
  destruct (Supabase.data rp) as [p|]; run.
  2: { destruct o3 as [ra|ea]; run; paths.
       all: split; [by intros (? & ? & ?)|by intros [_ (? & ? & _)]]. }
  destruct (assigned_classes p) as [[|c cs]|]; run.
  2: { rewrite (Hum2 (c :: cs)). run.
       destruct (outcome (students_in_grade_levels client (c :: cs)));
         run; paths.
       all: try (destruct o3 as [ra|ea]; run; paths).
       all: split; [by intros (? & ? & ?)|by intros [_ (? & ? & _)]]. }
  all: destruct o3 as [ra|ea]; run; paths.
  all: split; [by intros (? & ? & ?)|by intros [_ (? & ? & _)]].
Qed.

End UnreachedViews.

(** ** Further properties: instances *)

Section PolicyInstances.

Import Rules Policy.

Lemma unauthenticated_access_A_witness :
  A.allows Cases.school None (Cases.anonymous Get) (Payments "p1") = false
  ∧ A.allows Cases.school None (Cases.anonymous Update)
      (StudentPreferences "S1") = true.
Proof.
  split.
  - exact (unauthenticated_access_A Cases.school None (Cases.anonymous Get)
             (Payments "p1") eq_refl).
  - exact (unauthenticated_access_A Cases.school None (Cases.anonymous Update)
             (StudentPreferences "S1") eq_refl).
Defined.

Lemma ruleset_B_grants_what_A_grants_witness :
  A.allows Cases.school None (Cases.by_admin Delete ∅) (Students "S1") = true
  ∧ B.allows Cases.school ∅ None (Cases.by_admin Delete ∅) (Students "S1")
    = true.
Proof.
  split; [reflexivity|].
  apply (proj1 (ruleset_B_grants_what_A_grants Cases.school ∅ None
                  (Cases.by_admin Delete ∅) "S1")).
  reflexivity.
Defined.

Lemma admin_reserved_operations_A_witness :
  A.allows Cases.school None (Cases.by_admin Get ∅) (Payments "p1") = true
  ∧ holds (RulesetA.isAdmin (Cases.by_admin Get ∅)) = true.
Proof.
  split; [reflexivity|].
  apply (proj1 (admin_reserved_operations_A Cases.school None
                  (Cases.by_admin Get ∅) "p1")).
  reflexivity.
Defined.

Lemma created_records_carry_author_A_witness :
  let req := Cases.by_kofi Create Cases.homework in
  A.allows Cases.school None req (Assignments "a1") = true
  ∧ ∃ a, auth req = Some a ∧ is_Some (teachers Cases.school !! uid a)
         ∧ resource_data req !! "teacherId" = Some (VString (uid a)).
Proof.
  split; [reflexivity|].
  apply (proj1 (created_records_carry_author_A Cases.school None
                  (Cases.by_kofi Create Cases.homework) "a1" eq_refl)).
  left. reflexivity.
Defined.

Lemma teacher_reads_own_records_A_witness :
  let req := Cases.by_kofi Get ∅ in
  A.allows Cases.school (Some Cases.homework) req (Assignments "a1") = true
  ∧ ∃ a doc, auth req = Some a ∧ is_Some (teachers Cases.school !! uid a)
             ∧ Some Cases.homework = Some doc
             ∧ doc !! "teacherId" = Some (VString (uid a)).
Proof.
  split; [reflexivity|].
  apply (proj1 (teacher_reads_own_records_A Cases.school
                  (Some Cases.homework) (Cases.by_kofi Get ∅) "a1"
                  eq_refl (ex_intro _ Cases.kofi eq_refl) eq_refl)).
  left. reflexivity.
Defined.

Lemma teacher_profile_access_A_witness :
  RulesetA.teachers_rule "uid-kofi" (Cases.by_kofi Update ∅) = true.
Proof.
  apply (proj2 (teacher_profile_access_A (Cases.by_kofi Update ∅) "uid-kofi")
           Cases.kofi eq_refl eq_refl).
  split; [reflexivity|]. split; discriminate.
Defined.

Lemma attendance_read_B_witness :
  B.attendanceEntries Cases.school ∅ (Some Cases.portal_entry)
    (Cases.anonymous Get) = true.
Proof.
  apply (proj2 (attendance_read_B Cases.school ∅ (Some Cases.portal_entry)
                  (Cases.anonymous Get) eq_refl)).
  right. eexists. split; reflexivity.
Defined.

Lemma unauthenticated_access_B_witness :
  B.allows Cases.school ∅ None (Cases.anonymous Create) (Students "S3") = false
  ∧ B.allows Cases.school ∅ None (Cases.anonymous Get) (Teachers "uid-kofi")
    = true.
Proof.
  split.
  - exact (unauthenticated_access_B Cases.school ∅ None
             (Cases.anonymous Create) (Students "S3") eq_refl).
  - exact (unauthenticated_access_B Cases.school ∅ None
             (Cases.anonymous Get) (Teachers "uid-kofi") eq_refl).
Defined.

Lemma teacher_writes_own_records_B_witness :
  let req := Cases.by_kofi Create Cases.homework in
  B.allows Cases.school ∅ None req (Assignments "a1") = true
  ∧ ∃ a, auth req = Some a ∧ is_Some (teachers Cases.school !! uid a)
         ∧ resource_data req !! "teacherId" = Some (VString (uid a)).
Proof.
  split; [reflexivity|].
  apply (teacher_writes_own_records_B Cases.school ∅ None
           (Cases.by_kofi Create Cases.homework) "a1" eq_refl).
  left. reflexivity.
Defined.

End PolicyInstances.

Section LoginInstances.

Import Ui Supabase LoginForm.

Lemma student_login_success_witness :
  let w := exec (StudentLogin.onSubmit Examples.provider_with_profile
                   Examples.credentials) (mkWorld initial ∅ []) in
  (∃ description,
     calls w = [SignInWithPassword "ama@school.edu" "secret";
                SelectSingle "students" "auth_user_id" "uid-ama";
                Toast "Login Successful" description;
                RouterPush "/student/dashboard"])
  ∧ loginError (react w) = None.
Proof.
  exact (student_login_success Examples.provider_with_profile
           Examples.credentials initial ∅ Examples.ama eq_refl eq_refl).
Defined.

Lemma login_ignores_email_case_witness :
  let w := mkWorld initial ∅ [] in
  AdminLogin.onSubmit Examples.keys true Examples.provider_with_profile
    Examples.credentials w
  = AdminLogin.onSubmit Examples.keys true Examples.provider_with_profile
      Cases.lower_credentials w
  ∧ StudentLogin.onSubmit Examples.provider_with_profile
      Examples.credentials w
    = StudentLogin.onSubmit Examples.provider_with_profile
        Cases.lower_credentials w.
Proof.
  exact (login_ignores_email_case Examples.keys true
           Examples.provider_with_profile Examples.credentials
           Cases.lower_credentials (mkWorld initial ∅ []) eq_refl eq_refl).
Defined.

Lemma auth_error_texts_witness :
  let w := exec (AdminLogin.onSubmit Examples.keys true
                   Cases.provider_refusing Examples.credentials)
             (mkWorld initial ∅ []) in
  loginError (react w)
  = Some "Invalid email or password. Please check your credentials and try again."
  ∧ calls w = [SignInWithPassword "ama@school.edu" "secret"; SignOut].
Proof.
  destruct (auth_error_texts Examples.keys true Cases.provider_refusing
              Examples.credentials initial ∅ _
              (Js.mkError (Some "Invalid login credentials") None)
              "Invalid login credentials" eq_refl eq_refl eq_refl)
    as (Htext & _ & Hcalls & _).
  split; [exact Htext | exact Hcalls].
Defined.

Lemma sign_in_rejected_texts_witness :
  let w := exec (StudentLogin.onSubmit Cases.provider_unreachable
                   Examples.credentials) (mkWorld initial ∅ []) in
  loginError (react w)
  = Some "Could not connect to the server. Please check your internet connection and ensure the Supabase URL in your .env file is correct."
  ∧ calls w
    = [SignInWithPassword "ama@school.edu" "secret"; SignOut; Console Err].
Proof.
  destruct (sign_in_rejected_texts Examples.keys true
              Cases.provider_unreachable Examples.credentials initial ∅
              (Js.mkError (Some "TypeError: Failed to fetch") None) eq_refl)
    as (_ & Htext & _ & Hcalls).
  split; [exact Htext | exact Hcalls].
Defined.

Lemma auth_error_without_message_witness :
  let w := exec (AdminLogin.onSubmit Examples.keys true
                   Cases.provider_silent Examples.credentials)
             (mkWorld initial ∅ []) in
  calls w = [SignInWithPassword "ama@school.edu" "secret"; SignOut; SignOut].
Proof.
  exact (proj1 (auth_error_without_message Examples.keys true
                  Cases.provider_silent Examples.credentials initial ∅ _
                  (Js.mkError None None) eq_refl eq_refl eq_refl eq_refl)).
Defined.

End LoginInstances.

Section DashboardViewInstances.

Import Ui Js Inv TeacherDashboard.

Lemma dashboard_redirects_only_without_uid_witness :
  let loaded := exec (onMount Examples.keys Examples.teacher_browser)
                  (mount initial ∅) in
  localStorage loaded = ∅
  ∧ calls loaded = [RouterPush "/auth/teacher/login"].
Proof.
  destruct (dashboard_redirects_only_without_uid Examples.keys
              Examples.teacher_browser Examples.empty_backend ∅ eq_refl)
    as (Hstorage & Hpush & _).
  split; [exact Hstorage|]. apply Hpush. reflexivity.
Defined.

Lemma dashboard_unmount_witness :
  let loaded :=
    exec (onMount Examples.keys (mkEnv true (Some Cases.left_early)))
      (mount initial Examples.kofi_storage) in
  react loaded = with_isMounted false initial
  ∧ SelectAnnouncements ∈ calls loaded.
Proof.
  destruct (dashboard_unmount Examples.keys
              (mkEnv true (Some Cases.left_early)) Cases.left_early
              Examples.kofi_storage "uid-kofi"
              eq_refl eq_refl eq_refl ltac:(discriminate))
    as (Hstate & _ & Hcalls).
  split; [apply Hstate; reflexivity|].
  apply (Hcalls (Examples.teacher ["5A"]) eq_refl). intros c cs _. reflexivity.
Defined.

Lemma dashboard_profile_missing_witness :
  let loaded := exec (onMount Examples.keys Examples.teacher_browser)
                  (mount initial Examples.kofi_storage) in
  calls loaded
  = [SelectSingle "teachers" "auth_user_id" "uid-kofi"; SelectAnnouncements]
  ∧ render (react loaded) = ProfileIssue Mounted.profile_not_found false true.
Proof.
  destruct (proj1 (dashboard_profile_missing Examples.keys
              Examples.teacher_browser Examples.empty_backend
              Examples.kofi_storage "uid-kofi"
              eq_refl eq_refl eq_refl ltac:(discriminate)
              (conj eq_refl eq_refl))
            (Some []) (conj eq_refl eq_refl))
    as (_ & Hcalls & Hview).
  split; [exact Hcalls | exact Hview].
Defined.


Lemma dashboard_leaves_loading_view_witness :
  (let loaded := exec (onMount Examples.keys Examples.teacher_browser)
                   (mount initial Examples.kofi_storage) in
   isLoading (react loaded) = false)
  ∧ (let loaded := exec (onMount Examples.keys Cases.no_client)
                     (mount initial Examples.kofi_storage) in
     render (react loaded) = LoadingPage).
Proof.
  split.
  - apply (proj1 (dashboard_leaves_loading_view Examples.keys
                    Examples.teacher_browser Examples.kofi_storage)
             Examples.empty_backend eq_refl).
    split; [|split]; reflexivity.
  - apply (proj2 (dashboard_leaves_loading_view Examples.keys
                    Cases.no_client Examples.kofi_storage)).
    reflexivity.
Defined.

Lemma roster_view_witness :
  class_sections
    (renderDashboard Cases.two_classes (Examples.teacher ["5A"; "5B"]))
  = [mkSection "5A" (Some [Examples.student "S1" "5A"]); mkSection "5B" None].
Proof.
  exact (proj1 (roster_view Cases.two_classes (Examples.teacher ["5A"; "5B"])
                  ["5A"; "5B"] [Examples.student "S1" "5A"]
                  eq_refl eq_refl)).
Defined.

Lemma dashboard_profile_not_loaded_witness :
  let loaded :=
    exec (onMount Examples.keys (mkEnv true (Some Cases.misfiled)))
      (mount initial Examples.kofi_storage) in
  render (react loaded) = ProfileNotLoaded.
Proof.
  apply (proj2 (dashboard_profile_not_loaded Examples.keys
                  (mkEnv true (Some Cases.misfiled)) Cases.misfiled
                  Examples.kofi_storage eq_refl
                  (conj (λ _, eq_refl) (conj (λ _, eq_refl) eq_refl)))).
  split; [reflexivity|]. eexists. split; reflexivity.
Defined.

End DashboardViewInstances.

Section AttendanceInstances.

Import Ui Js StudentAttendance.

Lemma attendance_page_reads_only_witness :
  let loaded := exec (onMount Examples.keys Cases.registry)
                  (mount initial Cases.ama_storage) in
  GetDocs "attendanceEntries" "studentId" "S1" ∈ calls loaded
  ∧ ∃ d, outcome (getDoc (db Cases.registry) "S1") = Returned (Some d).
Proof.
  assert (GetDocs "attendanceEntries" "studentId" "S1"
          ∈ calls (exec (onMount Examples.keys Cases.registry)
                     (mount initial Cases.ama_storage))) as Hcalled.
  { apply list_elem_of_further, list_elem_of_here. }
  split; [exact Hcalled|].
  apply (proj2 (proj2 (attendance_page_reads_only Examples.keys
                         Cases.registry Cases.ama_storage)) Hcalled).
Defined.

Lemma attendance_leaves_loading_view_witness :
  let loaded := exec (onMount Examples.keys Cases.registry)
                  (mount initial Cases.ama_storage) in
  isLoading (react loaded) = false.
Proof.
  apply (attendance_leaves_loading_view Examples.keys Cases.registry
           Cases.ama_storage).
  split; reflexivity.
Defined.

Lemma attendance_profile_missing_witness :
  let loaded := exec (onMount Examples.keys Examples.browser)
                  (mount initial Cases.ama_storage) in
  render (react loaded)
  = ErrorCard "Student profile not found. Please contact administration."
      false.
Proof.
  apply (attendance_profile_missing Examples.keys Examples.browser
           Cases.ama_storage "S1" eq_refl eq_refl ltac:(discriminate)
           eq_refl eq_refl).
Defined.

Lemma attendance_loaded_witness :
  let loaded := exec (onMount Examples.keys Cases.registry)
                  (mount initial Cases.ama_storage) in
  render (react loaded)
  = AttendancePage (mkRegisteredStudent "S1" "Ama Mensah" "5A")
      [mkRow "S1_2024-01-08" 1704672000 "5A" (Some Green) "Present" "N/A"
         "Kofi Boateng"].
Proof.
  destruct (attendance_loaded Examples.keys Cases.registry Cases.ama_storage
              "S1" eq_refl eq_refl ltac:(discriminate)
              Cases.ama_data [Cases.present_on_monday]
              (conj (λ _, eq_refl) (λ _, eq_refl)) eq_refl eq_refl)
    as (_ & Hview & _).
  exact Hview.
Defined.

Lemma attendance_failure_shown_witness :
  let loaded := exec (onMount Examples.keys Cases.offline)
                  (mount initial Cases.ama_storage) in
  calls loaded = [GetDoc "students" "S1"; Console Err]
  ∧ render (react loaded) = ErrorCard "Failed to load data: offline" false.
Proof.
  destruct (proj1 (attendance_failure_shown Examples.keys Cases.offline
                     Cases.ama_storage "S1" eq_refl eq_refl
                     ltac:(discriminate) (Js.mkError (Some "offline") None))
              eq_refl eq_refl) as [Hworld Hview].
  split; [by rewrite Hworld | exact Hview].
Defined.

Lemma attendance_unmount_witness :
  let loaded := exec (onMount Examples.keys Cases.registry_left_early)
                  (mount initial Cases.ama_storage) in
  react loaded = with_isMounted false initial
  ∧ GetDocs "attendanceEntries" "studentId" "S1" ∈ calls loaded.
Proof.
  destruct (attendance_unmount Examples.keys Cases.registry_left_early
              Cases.ama_storage "S1" eq_refl eq_refl ltac:(discriminate))
    as (Hstate & _ & Hcalls).
  split; [apply Hstate; reflexivity|].
  apply (Hcalls Cases.ama_data). reflexivity.
Defined.

Lemma attendance_never_student_not_found_witness :
  let loaded := exec (onMount Examples.keys Examples.browser)
                  (mount initial Cases.ama_storage) in
  render (react loaded) ≠ StudentNotFound
  ∧ calls loaded = [GetDoc "students" "S1"].
Proof.
  split; [|reflexivity].
  apply (attendance_never_student_not_found Examples.keys Examples.browser
           Cases.ama_storage).
  split; reflexivity.
Defined.

End AttendanceInstances.
